(** * A Prometheus exporter for host metrics: model of [main.py]

    The program is one Python module: it reads its bind address from the
    environment, starts an [HTTPServer] whose handler class
    [MetricsHandler] only defines [do_GET], and answers [GET /] with the
    text produced by [generate_metrics] from three [psutil] reads.

    The embedding follows the module top to bottom.  Python [int] is [Z],
    [str] is [string] (the texts of the program are ASCII), [bytes] is
    [list byte], [os.environ] and the attribute table of the handler
    class are [gmap]s.  Effects are explicit: the handler runs in a small
    state-and-exception monad over the log, the list of operating-system
    reads and the response under construction.  The handler is given
    first on a socket that takes every write, then on a socket that can
    fail. *)

From Stdlib Require Import ZArith String Ascii List Lia.
From Stdlib Require Import Decimal DecimalString DecimalPos DecimalZ.
From stdpp Require Import gmap strings list.

Open Scope Z_scope.
Open Scope string_scope.
Open Scope list_scope.

#[local] Arguments String.append !s1 s2 : simpl nomatch.

(** ** Python built-ins used by the module *)

(** [str(n)] for an [int]: the decimal digits, with a minus sign for
    negative numbers. *)
Definition str_int (n : Z) : string :=
  NilZero.string_of_int (Z.to_int n).

(** [s.encode("utf-8")]: the strings of the model already are the UTF-8
    bytes of the text. *)
Definition encode_utf8 (s : string) : list Byte.byte :=
  list_byte_of_string s.

(** [sep.join(parts)]. *)
Definition join (sep : string) (parts : list string) : string :=
  String.concat sep parts.

(** The newline character and the one-character separator of the
    exposition text. *)
Definition LF : ascii := "010"%char.
Definition NL : string := String LF "".

(** [text.split("\n")], used to speak about the lines of a body.
    [split_lines_from line text] carries the characters already read of
    the current line. *)
Fixpoint split_lines_from (line : string) (text : string) : list string :=
  match text with
  | "" => [line]
  | String c rest =>
      if Ascii.eqb c LF then line :: split_lines_from "" rest
      else split_lines_from (line +:+ String c "") rest
  end.

Definition split_lines (text : string) : list string :=
  split_lines_from "" text.

(** Whether a character occurs in a string, and the last character. *)
Fixpoint occurs (c : ascii) (s : string) : bool :=
  match s with
  | "" => false
  | String d rest => Ascii.eqb c d || occurs c rest
  end.

Fixpoint last_char (s : string) : option ascii :=
  match s with
  | "" => None
  | String c "" => Some c
  | String _ rest => last_char rest
  end.

Definition is_digit (c : ascii) : bool :=
  (48 <=? N_of_ascii c)%N && (N_of_ascii c <=? 57)%N.

(** Whether every character of a string passes a test; the characters
    [str_int] can produce. *)
Fixpoint all_chars (ok : ascii -> bool) (s : string) : bool :=
  match s with
  | "" => true
  | String c rest => ok c && all_chars ok rest
  end.

Definition digit_or_minus (c : ascii) : bool :=
  is_digit c || Ascii.eqb c "-".

(** The ASCII fragment of [int(s)], base 10: surrounding white space
    (tab, line feed, vertical tab, form feed, carriage return, space) is
    dropped, one sign is allowed, and the digits may be grouped by single
    underscores.  [None] stands for [ValueError].  It instantiates the
    [int] parameter of the model wherever a run is evaluated. *)
Definition is_space (c : ascii) : bool :=
  let n := N_of_ascii c in
  ((9 <=? n)%N && (n <=? 13)%N) || (n =? 32)%N.

Fixpoint lstrip (s : string) : string :=
  match s with
  | String c rest => if is_space c then lstrip rest else s
  | "" => ""
  end.

Fixpoint rstrip (s : string) : string :=
  match s with
  | "" => ""
  | String c rest =>
      match rstrip rest with
      | "" => if is_space c then "" else String c ""
      | kept => String c kept
      end
  end.

Fixpoint digits_value (acc : Z) (after_digit : bool) (s : string) : option Z :=
  match s with
  | "" => if after_digit then Some acc else None
  | String c rest =>
      if is_digit c then
        digits_value (10 * acc + (Z.of_N (N_of_ascii c) - 48)) true rest
      else if Ascii.eqb c "_" then
        if after_digit then digits_value acc false rest else None
      else None
  end.

Definition ascii_int (s : string) : option Z :=
  match rstrip (lstrip s) with
  | String "-" rest => Z.opp <$> digits_value 0 false rest
  | String "+" rest => digits_value 0 false rest
  | body => digits_value 0 false body
  end.

(** ** Exceptions, log records, responses *)

(** An exception in flight.  [KeyboardInterrupt] is not a subclass of
    [Exception]; every other exception the program can meet is, and is
    kept with the name of its class and its [str()]. *)
Inductive exn : Type :=
  | KeyboardInterrupt
  | Exception (class_name : string) (message : string).

Definition is_Exception (e : exn) : bool :=
  match e with
  | KeyboardInterrupt => false
  | Exception _ _ => true
  end.

Inductive level : Type := INFO | WARNING | ERROR.

Definition log_record : Type := level * string.

(** What the handler has put on the wire so far: the status line of
    [send_response], the headers of [send_header] in order, whether
    [end_headers] was called, and the bytes written to [wfile].  The
    [Server] and [Date] headers that [send_response] adds by itself belong
    to the library and are left out. *)
Record response : Type := mk_response {
  status : option Z;
  headers : list (string * string);
  headers_ended : bool;
  body : list Byte.byte
}.

Definition no_response : response :=
  {| status := None; headers := []; headers_ended := false; body := [] |}.

(** The reads of the operating system that [psutil] performs. *)
Inductive os_read : Type :=
  | read_cpu_percent
  | read_virtual_memory
  | read_disk_usage (path : string).

(** State threaded through the handling of one request. *)
Record hstate : Type := mk_hstate {
  log : list log_record;
  reads : list os_read;
  wire : response
}.

(** ** The handler monad: state and exceptions *)

Definition M (A : Type) : Type := hstate -> (exn + A) * hstate.

Definition ret {A} (a : A) : M A := fun st => (inr a, st).

Definition bind {A B} (m : M A) (k : A -> M B) : M B :=
  fun st =>
    match m st with
    | (inl e, st') => (inl e, st')
    | (inr a, st') => k a st'
    end.

Notation "'let*' x ':=' m 'in' k" := (bind m (fun x => k))
  (at level 10, x name, m at level 100, k at level 200).
Notation "m ;; k" := (bind m (fun _ => k))
  (at level 100, k at level 200, right associativity).

Definition logger_emit (lvl : level) (msg : string) : M unit :=
  fun st => (inr tt, {| log := log st ++ [(lvl, msg)]; reads := reads st; wire := wire st |}).

Definition logger_info := logger_emit INFO.
Definition logger_warning := logger_emit WARNING.

(** The operations on the response.  Here the socket of the connection
    takes every write; the section on connections below has the socket
    that fails under [end_headers] and [wfile.write]. *)
Definition modify_wire (f : response -> response) : M unit :=
  fun st => (inr tt, {| log := log st; reads := reads st; wire := f (wire st) |}).

Definition send_response (code : Z) : M unit :=
  modify_wire (fun r =>
    {| status := Some code; headers := headers r;
       headers_ended := headers_ended r; body := body r |}).

Definition send_header (keyword value : string) : M unit :=
  modify_wire (fun r =>
    {| status := status r; headers := headers r ++ [(keyword, value)];
       headers_ended := headers_ended r; body := body r |}).

Definition end_headers : M unit :=
  modify_wire (fun r =>
    {| status := status r; headers := headers r;
       headers_ended := true; body := body r |}).

Definition wfile_write (data : list Byte.byte) : M unit :=
  modify_wire (fun r =>
    {| status := status r; headers := headers r;
       headers_ended := headers_ended r; body := body r ++ data |}).

(** A read of the operating system: it is recorded, then it returns its
    value or raises. *)
Definition os_call {A} (what : os_read) (result : exn + A) : M A :=
  fun st =>
    (result, {| log := log st; reads := reads st ++ [what]; wire := wire st |}).

(** The state after some more reads of the operating system. *)
Definition after_reads (st : hstate) (made : list os_read) : hstate :=
  {| log := log st; reads := reads st ++ made; wire := wire st |}.

(** ** The module, over the built-ins it takes from Python

    Two built-ins are parameters of the model: the type of Python floats
    with its [str()], which formats the CPU reading, and [int()] on
    strings, which parses the port ([None] is [ValueError]). *)

Section Exporter.

Context {float : Type}.
Variable str_float : float -> string.
Variable int : string -> option Z.

(** *** What [psutil] returns *)

(** The named tuple of [psutil.virtual_memory()]. *)
Record svmem : Type := mk_svmem {
  svmem_total : Z;
  svmem_available : Z;
  svmem_percent : float;
  svmem_used : Z;
  svmem_free : Z
}.

(** The named tuple of [psutil.disk_usage(path)]. *)
Record sdiskusage : Type := mk_sdiskusage {
  sdiskusage_total : Z;
  sdiskusage_used : Z;
  sdiskusage_free : Z;
  sdiskusage_percent : float
}.

(** The state of the machine as [psutil] sees it while one request is
    handled: each read returns its value or raises. *)
Record psutil : Type := mk_psutil {
  cpu_percent : exn + float;
  virtual_memory : exn + svmem;
  disk_usage : string -> exn + sdiskusage
}.

(** *** [generate_metrics] *)

(** The list literal [metrics] of [generate_metrics], as a function of
    the five local variables it interpolates. *)
Definition metrics_lines (cpu_usage : float)
    (memory_total memory_used disk_total disk_used : Z) : list string :=
  [ "# HELP cpu_usage CPU usage percentage";
    "# TYPE cpu_usage gauge";
    "cpu_usage " +:+ str_float cpu_usage;
    "# HELP memory_total Total system memory in bytes";
    "# TYPE memory_total gauge";
    "memory_total " +:+ str_int memory_total;
    "# HELP memory_used Used system memory in bytes";
    "# TYPE memory_used gauge";
    "memory_used " +:+ str_int memory_used;
    "# HELP disk_total Total disk space in bytes";
    "# TYPE disk_total gauge";
    "disk_total " +:+ str_int disk_total;
    "# HELP disk_used Used disk space in bytes";
    "# TYPE disk_used gauge";
    "disk_used " +:+ str_int disk_used ].

Definition generate_metrics (os : psutil) : M string :=
  let* cpu_usage := os_call read_cpu_percent (cpu_percent os) in
  let* mem_info := os_call read_virtual_memory (virtual_memory os) in
  let memory_total := svmem_total mem_info in
  let memory_used := memory_total - svmem_available mem_info in
  let* disk_info := os_call (read_disk_usage "/") (disk_usage os "/") in
  let disk_total := sdiskusage_total disk_info in
  let disk_used := sdiskusage_used disk_info in
  let metrics :=
    metrics_lines cpu_usage memory_total memory_used disk_total disk_used in
  ret (join NL metrics).

(** *** [MetricsHandler] *)

(** [MetricsHandler.do_GET]; [path] is [self.path]. *)
Definition do_GET (os : psutil) (path : string) : M unit :=
  if String.eqb path "/" then
    logger_info "Received GET request for metrics.";;
    let* metrics := generate_metrics os in
    send_response 200;;
    send_header "Content-type" "text/plain";;
    end_headers;;
    wfile_write (encode_utf8 metrics)
  else
    logger_warning ("Received GET request for unknown path: " +:+ path);;
    send_response 404;;
    end_headers.

(** The methods the class body defines, by attribute name.  The base
    class [BaseHTTPRequestHandler] defines no [do_*] method. *)
Definition MetricsHandler : gmap string (psutil -> string -> M unit) :=
  {[ "do_GET" := do_GET ]}.

(** What became of one request. *)
Inductive reply : Type :=
  | Sent (r : response)
  | Error_page (code : Z)
  | Raised (e : exn) (r : response).

(** [BaseHTTPRequestHandler.handle_one_request] once the request line is
    parsed into [command] and [path]: the method named ["do_" + command]
    is looked up on the handler; without it the library answers with
    [send_error(501)], whose page is not modelled further; with it the
    method runs, and an exception it raises leaves the handler. *)
Definition handle_one_request (handler : gmap string (psutil -> string -> M unit))
    (os : psutil) (command path : string) (st : hstate) : reply * hstate :=
  match handler !! ("do_" +:+ command) with
  | None => (Error_page 501, st)
  | Some method =>
      match method os path st with
      | (inr _, st') => (Sent (wire st'), st')
      | (inl e, st') => (Raised e (wire st'), st')
      end
  end.

(** *** The server loop *)

(** State of the process: the log of [logger], the operating-system reads
    made so far, what became of each request, the exceptions reported on
    standard error by the library, and the address the socket is bound
    to. *)
Record process : Type := mk_process {
  p_log : list log_record;
  p_reads : list os_read;
  p_replies : list reply;
  p_tracebacks : list exn;
  p_listening : option (string * Z)
}.

Definition initial : process :=
  {| p_log := []; p_reads := []; p_replies := []; p_tracebacks := [];
     p_listening := None |}.

Definition emit (lvl : level) (msg : string) (p : process) : process :=
  {| p_log := p_log p ++ [(lvl, msg)]; p_reads := p_reads p;
     p_replies := p_replies p; p_tracebacks := p_tracebacks p;
     p_listening := p_listening p |}.

(** What reaches the listening socket: a request, with the state of the
    machine while it is handled, or the interrupt signal. *)
Inductive event : Type :=
  | Request (os : psutil) (command path : string)
  | Interrupt.

(** [socketserver] passes an [Exception] that leaves a handler to the
    server's [handle_error].  [HTTPServer] keeps the default one, which
    prints the traceback on standard error and returns; [reraise] stands
    for an override that lets the exception through, and is there to show
    which results depend on the default. *)
Inductive handle_error_hook : Type := print_traceback | reraise.

Definition enter (p : process) : hstate :=
  {| log := p_log p; reads := p_reads p; wire := no_response |}.

Definition leave (p : process) (r : reply) (st : hstate) : process :=
  {| p_log := log st; p_reads := reads st; p_replies := p_replies p ++ [r];
     p_tracebacks := p_tracebacks p; p_listening := p_listening p |}.

Definition report (e : exn) (p : process) : process :=
  {| p_log := p_log p; p_reads := p_reads p; p_replies := p_replies p;
     p_tracebacks := p_tracebacks p ++ [e]; p_listening := p_listening p |}.

(** [server.serve_forever()] on a finite prefix of what arrives.  The
    call never returns normally: it is left by an exception ([Some e]) or
    is still waiting for the next connection when the prefix ends
    ([None]). *)
Fixpoint serve_forever (hook : handle_error_hook) (arrivals : list event)
    (p : process) : option exn * process :=
  match arrivals with
  | [] => (None, p)
  | Interrupt :: _ => (Some KeyboardInterrupt, p)
  | Request os command path :: later =>
      let '(r, st) := handle_one_request MetricsHandler os command path (enter p) in
      let p' := leave p r st in
      match r with
      | Raised e _ =>
          if is_Exception e then
            match hook with
            | print_traceback => serve_forever hook later (report e p')
            | reraise => (Some e, p')
            end
          else (Some e, p')
      | _ => serve_forever hook later p'
      end
  end.

(** *** The module level and the [__main__] block *)

Definition EXPORTER_HOST (environ : gmap string string) : string :=
  default "0.0.0.0" (environ !! "EXPORTER_HOST").

Definition EXPORTER_PORT (environ : gmap string string) : option Z :=
  int (default "8081" (environ !! "EXPORTER_PORT")).

(** How the process ends, if it does: [Exited status], or [Serving] when
    it is still inside [serve_forever]. *)
Inductive outcome : Type :=
  | Exited (exit_status : Z)
  | Serving.

(** The two [except] clauses of the [__main__] block. *)
Definition except_clauses (e : exn) (p : process) : process :=
  match e with
  | KeyboardInterrupt => emit INFO "Shutting down the exporter." p
  | Exception _ message => emit ERROR ("An error occurred: " +:+ message) p
  end.

Definition listen (host : string) (port : Z) (p : process) : process :=
  {| p_log := p_log p; p_reads := p_reads p; p_replies := p_replies p;
     p_tracebacks := p_tracebacks p; p_listening := Some (host, port) |}.

(** The whole run.  [environ] is [os.environ] after [load_dotenv()];
    [server_bind host port] is what binding the socket in
    [HTTPServer((host, port), MetricsHandler)] does on this machine
    ([None]: it succeeds).  The assignment of [EXPORTER_PORT] is outside
    the [try]: when [int] raises, the interpreter prints the traceback and
    exits with status 1.  After either [except] clause the module ends and
    the interpreter exits with status 0. *)
Definition run (hook : handle_error_hook) (environ : gmap string string)
    (server_bind : string -> Z -> option exn) (arrivals : list event)
    : outcome * process :=
  let host := EXPORTER_HOST environ in
  match EXPORTER_PORT environ with
  | None => (Exited 1, initial)
  | Some port =>
      let p :=
        emit INFO ("Starting exporter on " +:+ host +:+ ":" +:+ str_int port)
          initial in
      match server_bind host port with
      | Some e => (Exited 0, except_clauses e p)
      | None =>
          let p :=
            emit INFO ("Exporter running on http://" +:+ host +:+ ":"
                       +:+ str_int port +:+ "/") (listen host port p) in
          match serve_forever hook arrivals p with
          | (Some e, p) => (Exited 0, except_clauses e p)
          | (None, p) => (Serving, p)
          end
      end
  end.

(** The program as written: [HTTPServer] with the default [handle_error]. *)
Definition main := run print_traceback.

End Exporter.

Arguments svmem : clear implicits.
Arguments sdiskusage : clear implicits.
Arguments psutil : clear implicits.
Arguments event : clear implicits.
Arguments Interrupt {float}.

(** ** The handler on a socket that can fail

    [send_response] and [send_header] only fill a buffer.  [end_headers]
    flushes it and [wfile.write] sends the body, each through one
    [sock.sendall], which raises when the peer is gone or a timeout
    expires.  A [socket] says what each of the two calls does on one
    connection ([None]: it returns).  When [sendall] raises, the response
    record is left as it was.  A request is taken as parsed, with an HTTP
    version, one per connection. *)

Record socket : Type := mk_socket {
  sendall_headers : option exn;
  sendall_body : option exn
}.

Definition sound : socket :=
  {| sendall_headers := None; sendall_body := None |}.

Definition sendall (outcome : option exn) : M unit :=
  fun st =>
    match outcome with
    | Some e => (inl e, st)
    | None => (inr tt, st)
    end.

Definition end_headers_on (sock : socket) : M unit :=
  sendall (sendall_headers sock);;
  end_headers.

Definition wfile_write_on (sock : socket) (data : list Byte.byte) : M unit :=
  sendall (sendall_body sock);;
  wfile_write data.

(** [TimeoutError] is caught by name of class; instances of its
    subclasses are taken under that name. *)
Definition is_TimeoutError (e : exn) : bool :=
  match e with
  | KeyboardInterrupt => false
  | Exception class_name _ => String.eqb class_name "TimeoutError"
  end.

(** A computation of the handler is [tame] when what it returns or
    raises, the records and the reads it appends and what it does to the
    response do not depend on the log and the reads it starts from, and
    it appends no ERROR record. *)
Definition tame {A : Type} (m : M A) : Prop :=
  exists (result : exn + A) (records : list log_record)
         (made : list os_read) (k : response -> response),
    Forall (fun record => fst record <> ERROR) records
    /\ forall st,
         m st
         = (result,
            {| log := log st ++ records; reads := reads st ++ made;
               wire := k (wire st) |}).

Section Connection.

Context {float : Type}.
Variable str_float : float -> string.
Variable int : string -> option Z.

(** [MetricsHandler.do_GET] with the socket of the connection. *)
Definition do_GET_on (sock : socket) (os : psutil float) (path : string)
    : M unit :=
  if String.eqb path "/" then
    logger_info "Received GET request for metrics.";;
    let* metrics := generate_metrics str_float os in
    send_response 200;;
    send_header "Content-type" "text/plain";;
    end_headers_on sock;;
    wfile_write_on sock (encode_utf8 metrics)
  else
    logger_warning ("Received GET request for unknown path: " +:+ path);;
    send_response 404;;
    end_headers_on sock.

Definition MetricsHandler_on
    : gmap string (socket -> psutil float -> string -> M unit) :=
  {[ "do_GET" := do_GET_on ]}.

(** [send_error(501)] of the base class, as far as the socket goes: the
    headers of the error page are flushed, then its body is written
    unless the method is [HEAD].  The page itself is not modelled. *)
Definition send_error_on (sock : socket) (command : string) : M unit :=
  sendall (sendall_headers sock);;
  if String.eqb command "HEAD" then ret tt
  else sendall (sendall_body sock).

(** [BaseHTTPRequestHandler.handle_one_request] on that socket: the
    dispatch of [handle_one_request], where sending the 501 page can
    raise as well. *)
Definition handle_one_request_on
    (handler : gmap string (socket -> psutil float -> string -> M unit))
    (sock : socket) (os : psutil float) (command path : string)
    (st : hstate) : reply * hstate :=
  match handler !! ("do_" +:+ command) with
  | None =>
      match send_error_on sock command st with
      | (inr _, st') => (Error_page 501, st')
      | (inl e, st') => (Raised e (wire st'), st')
      end
  | Some method =>
      match method sock os path st with
      | (inr _, st') => (Sent (wire st'), st')
      | (inl e, st') => (Raised e (wire st'), st')
      end
  end.

(** The exception that leaves [handle_one_request], if any: its
    [except TimeoutError] clause keeps a [TimeoutError] of the method (it
    is reported on standard error as a request that timed out); every
    other exception goes on to the server. *)
Definition propagates (r : reply) : option exn :=
  match r with
  | Raised e _ => if is_TimeoutError e then None else Some e
  | _ => None
  end.

(** What reaches the listening socket: a connection with its socket, the
    state of the machine while its request is handled and the request, or
    the interrupt signal. *)
Inductive incoming : Type :=
  | Connection (sock : socket) (os : psutil float) (command path : string)
  | Sigint.

(** [server.serve_forever()] over such connections: as [serve_forever],
    with [handle_error] called only for what leaves
    [handle_one_request]. *)
Fixpoint serve_forever_on (hook : handle_error_hook)
    (arrivals : list incoming) (p : process) : option exn * process :=
  match arrivals with
  | [] => (None, p)
  | Sigint :: _ => (Some KeyboardInterrupt, p)
  | Connection sock os command path :: later =>
      let '(r, st) :=
        handle_one_request_on MetricsHandler_on sock os command path
          (enter p) in
      let p' := leave p r st in
      match propagates r with
      | None => serve_forever_on hook later p'
      | Some e =>
          if is_Exception e then
            match hook with
            | print_traceback => serve_forever_on hook later (report e p')
            | reraise => (Some e, p')
            end
          else (Some e, p')
      end
  end.

(** The run of the module over such connections: [run] with
    [serve_forever_on] for the loop. *)
Definition run_on (hook : handle_error_hook) (environ : gmap string string)
    (server_bind : string -> Z -> option exn) (arrivals : list incoming)
    : outcome * process :=
  let host := EXPORTER_HOST environ in
  match EXPORTER_PORT int environ with
  | None => (Exited 1, initial)
  | Some port =>
      let p :=
        emit INFO ("Starting exporter on " +:+ host +:+ ":" +:+ str_int port)
          initial in
      match server_bind host port with
      | Some e => (Exited 0, except_clauses e p)
      | None =>
          let p :=
            emit INFO ("Exporter running on http://" +:+ host +:+ ":"
                       +:+ str_int port +:+ "/") (listen host port p) in
          match serve_forever_on hook arrivals p with
          | (Some e, p) => (Exited 0, except_clauses e p)
          | (None, p) => (Serving, p)
          end
      end
  end.

Definition main_on := run_on print_traceback.

(** The reply a connection gets when it is the only one, and the
    connection of a request. *)
Definition answer_on (request : socket * psutil float * string * string)
    : reply :=
  let '(sock, os, command, path) := request in
  fst (handle_one_request_on MetricsHandler_on sock os command path
         {| log := []; reads := []; wire := no_response |}).

Definition connection_of (request : socket * psutil float * string * string)
    : incoming :=
  let '(sock, os, command, path) := request in
  Connection sock os command path.

(** An arrival of the first model, on a sound socket. *)
Definition on_sound_socket (ev : event float) : incoming :=
  match ev with
  | Request os command path => Connection sound os command path
  | Interrupt => Sigint
  end.

End Connection.

Arguments incoming : clear implicits.
Arguments Sigint {float}.

(** ** Concrete machines and runs

    The data on which the statements below are evaluated.  A CPU reading
    is kept in tenths of a percent, as [psutil.cpu_percent()] returns the
    percentage rounded to one decimal; [str_percentage] is its [str()]. *)

Definition percentage : Type := N.

Definition str_percentage (tenths : percentage) : string :=
  str_int (Z.of_N (tenths / 10)) +:+ "." +:+ str_int (Z.of_N (tenths mod 10)).

Definition busy_memory : svmem percentage :=
  {| svmem_total := 16000000000; svmem_available := 8000000000;
     svmem_percent := 500%N; svmem_used := 7400000000;
     svmem_free := 1200000000 |}.

Definition root_disk : sdiskusage percentage :=
  {| sdiskusage_total := 512000000000; sdiskusage_used := 128000000000;
     sdiskusage_free := 384000000000; sdiskusage_percent := 250%N |}.

(** A machine at 42.5% CPU with 16 GB of memory, half of it available. *)
Definition machine : psutil percentage :=
  {| cpu_percent := inr 425%N;
     virtual_memory := inr busy_memory;
     disk_usage := fun _ => inr root_disk |}.

(** The same five readings on a machine that differs in every field the
    exporter does not read. *)
Definition machine' : psutil percentage :=
  {| cpu_percent := inr 425%N;
     virtual_memory :=
       inr {| svmem_total := 16000000000; svmem_available := 8000000000;
              svmem_percent := 501%N; svmem_used := 7000000000;
              svmem_free := 900000000 |};
     disk_usage := fun path =>
       if String.eqb path "/" then
         inr {| sdiskusage_total := 512000000000;
                sdiskusage_used := 128000000000;
                sdiskusage_free := 380000000000;
                sdiskusage_percent := 251%N |}
       else inl (Exception "FileNotFoundError"
                   "[Errno 2] No such file or directory") |}.

(** A machine on which the root file system cannot be queried. *)
Definition no_disk_access : exn :=
  Exception "PermissionError" "[Errno 13] Permission denied: '/'".

Definition restricted_machine : psutil percentage :=
  {| cpu_percent := inr 17%N;
     virtual_memory := inr busy_memory;
     disk_usage := fun _ => inl no_disk_access |}.

(** Binding the listening socket: it works, or the port is taken. *)
Definition bind_succeeds : string -> Z -> option exn := fun _ _ => None.

Definition address_in_use : string -> Z -> option exn :=
  fun _ _ => Some (Exception "OSError" "[Errno 98] Address already in use").

Definition idle : hstate := {| log := []; reads := []; wire := no_response |}.

(** Sockets that fail: the peer has closed before the body is written;
    the socket times out while the headers are flushed. *)
Definition broken_pipe : exn :=
  Exception "BrokenPipeError" "[Errno 32] Broken pipe".

Definition timed_out : exn := Exception "TimeoutError" "timed out".

Definition closed_before_body : socket :=
  {| sendall_headers := None; sendall_body := Some broken_pipe |}.

Definition stalled : socket :=
  {| sendall_headers := Some timed_out; sendall_body := None |}.

(** A request whose metric read fails, followed by one that can be
    served. *)
Definition one_bad_connection : list (incoming percentage) :=
  [ Connection sound restricted_machine "GET" "/";
    Connection sound machine "GET" "/" ].

(** Four requests: a metric read fails, the client leaves before the
    body, the socket stalls under a 404, and one that can be served. *)
Definition four_requests
    : list (socket * psutil percentage * string * string) :=
  [ (sound, restricted_machine, "GET", "/");
    (closed_before_body, machine, "GET", "/");
    (stalled, machine, "GET", "/metrics");
    (sound, machine, "GET", "/") ].

(** ** The exposition format in the words of the specification

    Each metric contributes a HELP line, a TYPE line and a sample line;
    the text joins the lines of the five metrics, in their fixed order,
    with single newlines.  [exposition] is compared below with what
    [generate_metrics] returns. *)

Definition gauge (name description value : string) : list string :=
  [ "# HELP " +:+ name +:+ " " +:+ description;
    "# TYPE " +:+ name +:+ " gauge";
    name +:+ " " +:+ value ].

Definition exposition_lines
    (cpu_usage memory_total memory_used disk_total disk_used : string)
    : list string :=
  gauge "cpu_usage" "CPU usage percentage" cpu_usage
  ++ gauge "memory_total" "Total system memory in bytes" memory_total
  ++ gauge "memory_used" "Used system memory in bytes" memory_used
  ++ gauge "disk_total" "Total disk space in bytes" disk_total
  ++ gauge "disk_used" "Used disk space in bytes" disk_used.

Definition exposition
    (cpu_usage memory_total memory_used disk_total disk_used : string)
    : string :=
  join NL
    (exposition_lines cpu_usage memory_total memory_used disk_total disk_used).

(** ** Sentences of the specification, as predicates

    "Any method is routed the same as GET": on every handler state the
    request is handled as the GET request for the same path. *)
Definition routed_like_GET {float : Type} (str_float : float -> string)
    (os : psutil float) (command path : string) : Prop :=
  forall st,
    handle_one_request (MetricsHandler str_float) os command path st
    = handle_one_request (MetricsHandler str_float) os "GET" path st.



(** "The exception is caught at the top level and logged, and the
    listener continues serving": the log holds the record of the
    [except Exception] clause for [e], and the process is still serving. *)
Definition caught_at_top_level_and_still_serving
    (e_message : string) (result : outcome * process) : Prop :=
  In (ERROR, "An error occurred: " +:+ e_message) (p_log (snd result))
  /\ fst result = Serving.

(** A log without ERROR record. *)
Definition quiet (records : list log_record) : Prop :=
  Forall (fun record => fst record <> ERROR) records.

(** "The process exits with a non-zero status". *)
Definition exits_non_zero (result : outcome * process) : Prop :=
  exists n, fst result = Exited n /\ n <> 0.

(** ** Further vocabulary for the statements *)

(** The three reads of [generate_metrics], in the order of the source. *)
Definition metric_reads : list os_read :=
  [read_cpu_percent; read_virtual_memory; read_disk_usage "/"].

(** The reply a request gets from [MetricsHandler] when it is the only
    request the process ever sees. *)
Definition answer {float : Type} (str_float : float -> string)
    (request : psutil float * string * string) : reply :=
  let '(os, command, path) := request in
  fst (handle_one_request (MetricsHandler str_float) os command path idle).


(** Whether a reply is a [KeyboardInterrupt] raised while handling. *)
Definition interrupted (r : reply) : bool :=
  match r with
  | Raised KeyboardInterrupt _ => true
  | _ => false
  end.

(** A machine that reports more available than total memory. *)
Definition odd_memory : svmem percentage :=
  {| svmem_total := 1000; svmem_available := 1500; svmem_percent := 0%N;
     svmem_used := 0; svmem_free := 1500 |}.

Definition odd_machine : psutil percentage :=
  {| cpu_percent := inr 0%N;
     virtual_memory := inr odd_memory;
     disk_usage := fun _ => inr root_disk |}.

(** A machine on which no read works. *)
Definition no_cpu_access : exn :=
  Exception "AccessDenied" "psutil.AccessDenied".

Definition blind_machine : psutil percentage :=
  {| cpu_percent := inl no_cpu_access;
     virtual_memory := inl no_disk_access;
     disk_usage := fun _ => inl no_disk_access |}.


(** * Properties *)

(** ** Lines of a text *)

Lemma append_assoc (a b c : string) : (a +:+ b) +:+ c = a +:+ (b +:+ c).
Proof. induction a as [|x a IH]; simpl; [reflexivity | now rewrite IH]. Qed.

Lemma append_empty_r (a : string) : a +:+ "" = a.
Proof. induction a as [|x a IH]; simpl; [reflexivity | now rewrite IH]. Qed.

Lemma occurs_append (c : ascii) (a b : string) :
  occurs c (a +:+ b) = occurs c a || occurs c b.
Proof.
  induction a as [|x a IH]; simpl; [reflexivity|].
  now rewrite IH, orb_assoc.
Qed.

(** Reading a text that starts with a newline-free piece. *)
Lemma split_lines_from_piece (piece : string) :
  forall line rest,
    occurs LF piece = false ->
    split_lines_from line (piece +:+ rest)
    = split_lines_from (line +:+ piece) rest.
Proof.
  induction piece as [|c piece IH]; intros line rest Hfree.
  - now rewrite append_empty_r.
  - cbn [occurs] in Hfree. apply orb_false_iff in Hfree as [Hc Hpiece].
    cbn [String.append split_lines_from].
    rewrite Ascii.eqb_sym, Hc, (IH _ _ Hpiece).
    now rewrite append_assoc.
Qed.

(** [split] undoes [join] on lines that hold no newline. *)
Lemma split_lines_from_join (first : string) (others : list string) :
  forall line,
    Forall (fun l => occurs LF l = false) (first :: others) ->
    split_lines_from line (join NL (first :: others))
    = (line +:+ first) :: others.
Proof.
  revert first.
  induction others as [|second others IH]; intros first line Hfree.
  - apply Forall_inv in Hfree. simpl.
    rewrite <- (append_empty_r first) at 1.
    now rewrite (split_lines_from_piece first line "" Hfree).
  - pose proof (Forall_inv Hfree) as Hfirst.
    apply Forall_inv_tail in Hfree.
    change (join NL (first :: second :: others))
      with (first +:+ String LF (join NL (second :: others))).
    rewrite (split_lines_from_piece first line _ Hfirst).
    cbn [split_lines_from]. rewrite Ascii.eqb_refl.
    now rewrite (IH second "" Hfree).
Qed.

Lemma split_lines_join (first : string) (others : list string) :
  Forall (fun l => occurs LF l = false) (first :: others) ->
  split_lines (join NL (first :: others)) = first :: others.
Proof. intros Hfree. unfold split_lines. now rewrite split_lines_from_join. Qed.

Lemma last_char_append (a b : string) :
  b <> "" -> last_char (a +:+ b) = last_char b.
Proof.
  intros Hb. induction a as [|x a IH]; simpl; [reflexivity|].
  rewrite IH. destruct (a +:+ b) eqn:E; [|reflexivity].
  destruct a; simpl in E; [congruence | discriminate].
Qed.

Lemma join_ends_with (sep : string) (parts : list string) (final : string) :
  exists before, join sep (parts ++ [final])%list = before +:+ final.
Proof.
  induction parts as [|p parts [before IH]].
  - now exists "".
  - exists (p +:+ sep +:+ before).
    rewrite !append_assoc, <- IH.
    change ((p :: parts) ++ [final])%list with (p :: (parts ++ [final]))%list.
    unfold join. cbn [String.concat].
    now destruct parts.
Qed.

Lemma last_char_join (sep : string) (parts : list string) (final : string) :
  final <> "" ->
  last_char (join sep (parts ++ [final])%list) = last_char final.
Proof.
  intros Hfinal. destruct (join_ends_with sep parts final) as [before ->].
  now apply last_char_append.
Qed.

(** ** The digits of [str_int] *)

Lemma all_chars_digits_uint (d : uint) :
  all_chars is_digit (NilEmpty.string_of_uint d) = true.
Proof. induction d; simpl; auto. Qed.

Lemma all_chars_weaken (ok ok' : ascii -> bool) (s : string) :
  (forall c, ok c = true -> ok' c = true) ->
  all_chars ok s = true -> all_chars ok' s = true.
Proof.
  intros Hweak. induction s as [|c s IH]; simpl; [reflexivity|].
  intros [Hc Hs]%andb_true_iff. rewrite (Hweak _ Hc). now apply IH.
Qed.

Lemma str_int_chars (n : Z) : all_chars digit_or_minus (str_int n) = true.
Proof.
  assert (Hany : forall d, all_chars digit_or_minus (NilZero.string_of_uint d) = true).
  { intros d. destruct d; try reflexivity;
      apply (all_chars_weaken is_digit);
      try apply all_chars_digits_uint;
      intros c Hc; unfold digit_or_minus; now rewrite Hc. }
  unfold str_int. destruct n; simpl; [reflexivity | apply Hany |].
  change (digit_or_minus "-" && all_chars digit_or_minus
            (NilZero.string_of_uint (Pos.to_uint p)) = true).
  now rewrite Hany.
Qed.

Lemma all_chars_occurs (ok : ascii -> bool) (c : ascii) (s : string) :
  ok c = false -> all_chars ok s = true -> occurs c s = false.
Proof.
  intros Hc. induction s as [|d s IH]; cbn [all_chars occurs]; [reflexivity|].
  intros [Hd Hs]%andb_true_iff. rewrite (IH Hs), orb_false_r.
  destruct (Ascii.eqb_spec c d) as [->|]; congruence.
Qed.

Lemma str_int_one_line (n : Z) : occurs LF (str_int n) = false.
Proof. apply (all_chars_occurs digit_or_minus); [reflexivity | apply str_int_chars]. Qed.

Lemma all_chars_last (ok : ascii -> bool) (s : string) (c : ascii) :
  all_chars ok s = true -> last_char s = Some c -> ok c = true.
Proof.
  induction s as [|d s IH]; simpl; [discriminate|].
  intros [Hd Hs]%andb_true_iff. destruct s; [congruence | now apply IH].
Qed.

Lemma str_int_nonempty (n : Z) : str_int n <> "".
Proof.
  unfold str_int. destruct n; simpl; try discriminate.
  unfold NilZero.string_of_uint.
  pose proof (DecimalPos.Unsigned.to_uint_nonnil p) as Hnil.
  destruct (Pos.to_uint p); try congruence; discriminate.
Qed.

(** ** The handler *)

Section Handler.

Context {float : Type}.
Variable str_float : float -> string.

(** [generate_metrics] when the three reads return. *)
Lemma generate_metrics_returns (os : psutil float) c vm du (st : hstate) :
  cpu_percent os = inr c ->
  virtual_memory os = inr vm ->
  disk_usage os "/" = inr du ->
  generate_metrics str_float os st
  = (inr (join NL (metrics_lines str_float c (svmem_total vm)
                     (svmem_total vm - svmem_available vm)
                     (sdiskusage_total du) (sdiskusage_used du))),
     after_reads st
       [read_cpu_percent; read_virtual_memory; read_disk_usage "/"]).
Proof.
  intros Hcpu Hvm Hdu.
  unfold generate_metrics, bind, os_call, ret, after_reads.
  rewrite Hcpu, Hvm, Hdu. cbn [log reads wire].
  now rewrite <- !app_assoc.
Qed.

(** [generate_metrics] touches neither the log nor the response, and
    whatever it does it only adds reads. *)
Lemma generate_metrics_frame (os : psutil float) (st : hstate) :
  exists made, snd (generate_metrics str_float os st) = after_reads st made.
Proof.
  unfold generate_metrics, bind, os_call, ret, after_reads.
  destruct (cpu_percent os); cbn [log reads wire snd].
  { now exists [read_cpu_percent]. }
  destruct (virtual_memory os); cbn [log reads wire snd].
  { exists [read_cpu_percent; read_virtual_memory]. now rewrite <- !app_assoc. }
  destruct (disk_usage os "/"); cbn [log reads wire snd];
    exists [read_cpu_percent; read_virtual_memory; read_disk_usage "/"];
    now rewrite <- !app_assoc.
Qed.

(** The literal of the source is the format of the specification. *)
Lemma metrics_lines_exposition c mt mu dt du :
  join NL (metrics_lines str_float c mt mu dt du)
  = exposition (str_float c) (str_int mt) (str_int mu) (str_int dt) (str_int du).
Proof. reflexivity. Qed.

Lemma exposition_ends_with_value cpu mt mu dt (du : string) :
  du <> "" -> last_char (exposition cpu mt mu dt du) = last_char du.
Proof.
  intros Hdu. unfold exposition, exposition_lines, gauge.
  match goal with
  | |- last_char (join NL ?lines) = _ =>
      change lines with
        (removelast lines ++ ["disk_used" +:+ " " +:+ du])%list
  end.
  rewrite last_char_join by discriminate.
  now apply (last_char_append "disk_used ").
Qed.

(** [do_GET] on ["/"] when the three reads return, from any state. *)
Lemma do_GET_root_returns (os : psutil float) c vm du (st : hstate) :
  cpu_percent os = inr c ->
  virtual_memory os = inr vm ->
  disk_usage os "/" = inr du ->
  do_GET str_float os "/" st
  = (inr tt,
     {| log := log st ++ [(INFO, "Received GET request for metrics.")];
        reads := reads st ++ [read_cpu_percent; read_virtual_memory;
                              read_disk_usage "/"];
        wire :=
          {| status := Some 200;
             headers := headers (wire st) ++ [("Content-type", "text/plain")];
             headers_ended := true;
             body := body (wire st)
                     ++ encode_utf8
                          (join NL (metrics_lines str_float c (svmem_total vm)
                                      (svmem_total vm - svmem_available vm)
                                      (sdiskusage_total du)
                                      (sdiskusage_used du))) |} |}).
Proof.
  intros Hcpu Hvm Hdu.
  unfold do_GET. cbn [String.eqb Ascii.eqb Bool.eqb].
  unfold bind at 1. unfold logger_info, logger_emit at 1.
  unfold bind at 1.
  rewrite (generate_metrics_returns os c vm du _ Hcpu Hvm Hdu).
  reflexivity.
Qed.

(** C1.  On path ["/"], when the three reads of the operating system
    return, [do_GET] logs the request, sends status 200, the single header
    [Content-type: text/plain], ends the headers and writes the exposition
    text as body: the HELP, TYPE and sample lines of [cpu_usage],
    [memory_total], [memory_used], [disk_total] and [disk_used], fifteen
    lines joined by single newlines, the last one not followed by a
    newline. *)
Theorem do_GET_root_serves_exposition
    (os : psutil float) c vm du (journal : list log_record)
    (made : list os_read) :
  cpu_percent os = inr c ->
  virtual_memory os = inr vm ->
  disk_usage os "/" = inr du ->
  let text :=
    exposition (str_float c) (str_int (svmem_total vm))
      (str_int (svmem_total vm - svmem_available vm))
      (str_int (sdiskusage_total du)) (str_int (sdiskusage_used du)) in
  do_GET str_float os "/" (mk_hstate journal made no_response)
  = (inr tt,
     {| log := journal ++ [(INFO, "Received GET request for metrics.")];
        reads := made ++ [read_cpu_percent; read_virtual_memory;
                          read_disk_usage "/"];
        wire := {| status := Some 200;
                   headers := [("Content-type", "text/plain")];
                   headers_ended := true;
                   body := encode_utf8 text |} |})
  /\ length (exposition_lines (str_float c) (str_int (svmem_total vm))
               (str_int (svmem_total vm - svmem_available vm))
               (str_int (sdiskusage_total du))
               (str_int (sdiskusage_used du))) = 15%nat
  /\ last_char text <> Some LF.
Proof.
  intros Hcpu Hvm Hdu text. split; [|split].
  - rewrite (do_GET_root_returns os c vm du _ Hcpu Hvm Hdu).
    rewrite metrics_lines_exposition. reflexivity.
  - reflexivity.
  - subst text. rewrite exposition_ends_with_value by apply str_int_nonempty.
    intros Hlast.
    pose proof (all_chars_last _ _ _ (str_int_chars _) Hlast) as Hok.
    discriminate Hok.
Qed.

Lemma eqb_root_false (path : string) : path <> "/" -> String.eqb path "/" = false.
Proof. intros Hpath. now apply String.eqb_neq. Qed.

(** [do_GET] on any other path, from any state. *)
Lemma do_GET_unknown_path (os : psutil float) (path : string) (st : hstate) :
  path <> "/" ->
  do_GET str_float os path st
  = (inr tt,
     {| log := log st
               ++ [(WARNING, "Received GET request for unknown path: " +:+ path)];
        reads := reads st;
        wire := {| status := Some 404; headers := headers (wire st);
                   headers_ended := true; body := body (wire st) |} |}).
Proof.
  intros Hpath. unfold do_GET. rewrite (eqb_root_false path Hpath).
  reflexivity.
Qed.

(** C2.  On every path other than ["/"], [do_GET] sends status 404 and
    ends the headers: no header of its own and an empty body (it also logs
    a warning naming the path). *)
Theorem do_GET_other_path_404
    (os : psutil float) (path : string) (journal : list log_record)
    (made : list os_read) :
  path <> "/" ->
  do_GET str_float os path (mk_hstate journal made no_response)
  = (inr tt,
     {| log := journal
               ++ [(WARNING, "Received GET request for unknown path: " +:+ path)];
        reads := made;
        wire := {| status := Some 404; headers := [];
                   headers_ended := true; body := [] |} |}).
Proof. intros Hpath. now rewrite do_GET_unknown_path. Qed.

(** C10.  On a path other than ["/"], [do_GET] makes no read of the
    operating system ([generate_metrics] is not run), and what it does,
    the 404 response included, is the same whatever the state of the
    machine. *)
Theorem do_GET_other_path_reads_nothing
    (os os' : psutil float) (path : string) (st : hstate) :
  path <> "/" ->
  reads (snd (do_GET str_float os path st)) = reads st
  /\ do_GET str_float os path st = do_GET str_float os' path st
  /\ status (wire (snd (do_GET str_float os path st))) = Some 404.
Proof.
  intros Hpath. rewrite !do_GET_unknown_path by assumption.
  repeat split.
Qed.

(** C3.  When the operating system reports [0 <= available <= total] for
    memory and [used <= total] for the disk, the values [generate_metrics]
    writes on the [memory_used] and [disk_used] lines are at most those it
    writes on the [memory_total] and [disk_total] lines. *)
Theorem generate_metrics_used_le_total
    (os : psutil float) c vm du (st : hstate) :
  cpu_percent os = inr c ->
  virtual_memory os = inr vm ->
  disk_usage os "/" = inr du ->
  0 <= svmem_available vm <= svmem_total vm ->
  sdiskusage_used du <= sdiskusage_total du ->
  exists memory_total memory_used disk_total disk_used,
    fst (generate_metrics str_float os st)
    = inr (join NL (metrics_lines str_float c memory_total memory_used
                      disk_total disk_used))
    /\ nth_error (metrics_lines str_float c memory_total memory_used
                    disk_total disk_used) 5
       = Some ("memory_total " +:+ str_int memory_total)
    /\ nth_error (metrics_lines str_float c memory_total memory_used
                    disk_total disk_used) 8
       = Some ("memory_used " +:+ str_int memory_used)
    /\ nth_error (metrics_lines str_float c memory_total memory_used
                    disk_total disk_used) 11
       = Some ("disk_total " +:+ str_int disk_total)
    /\ nth_error (metrics_lines str_float c memory_total memory_used
                    disk_total disk_used) 14
       = Some ("disk_used " +:+ str_int disk_used)
    /\ memory_used <= memory_total
    /\ disk_used <= disk_total.
Proof.
  intros Hcpu Hvm Hdu Hmem Hdisk.
  exists (svmem_total vm), (svmem_total vm - svmem_available vm),
         (sdiskusage_total du), (sdiskusage_used du).
  rewrite (generate_metrics_returns os c vm du st Hcpu Hvm Hdu).
  repeat split; try reflexivity; lia.
Qed.

(** The lines of the text are those of the list when the CPU reading is
    printed on one line. *)
Lemma metrics_lines_split c mt mu dt du :
  occurs LF (str_float c) = false ->
  split_lines (join NL (metrics_lines str_float c mt mu dt du))
  = metrics_lines str_float c mt mu dt du.
Proof.
  intros Hcpu. apply split_lines_join. unfold metrics_lines.
  repeat apply List.Forall_cons; try apply List.Forall_nil; cbv beta;
    rewrite ?occurs_append, ?Hcpu, ?str_int_one_line; reflexivity.
Qed.

(** C4.  With a CPU reading that prints as [42.5], 16000000000 bytes of
    memory in total and 8000000000 available (hence 8000000000 used), the
    body [do_GET] writes for ["/"] has the lines [cpu_usage 42.5],
    [memory_total 16000000000] and [memory_used 8000000000]. *)
Theorem do_GET_example_lines
    (os : psutil float) c vm du (journal : list log_record)
    (made : list os_read) :
  cpu_percent os = inr c ->
  str_float c = "42.5" ->
  virtual_memory os = inr vm ->
  svmem_total vm = 16000000000 ->
  svmem_available vm = 8000000000 ->
  disk_usage os "/" = inr du ->
  exists text,
    wire (snd (do_GET str_float os "/" (mk_hstate journal made no_response)))
    = {| status := Some 200; headers := [("Content-type", "text/plain")];
         headers_ended := true; body := encode_utf8 text |}
    /\ In "cpu_usage 42.5" (split_lines text)
    /\ In "memory_total 16000000000" (split_lines text)
    /\ In "memory_used 8000000000" (split_lines text).
Proof.
  intros Hcpu Hstr Hvm Htotal Havailable Hdu.
  rewrite (do_GET_root_returns os c vm du _ Hcpu Hvm Hdu).
  cbn [snd wire no_response status headers body app].
  eexists. split; [reflexivity|].
  rewrite metrics_lines_split by (rewrite Hstr; reflexivity).
  unfold metrics_lines. rewrite Hstr, Htotal, Havailable.
  cbn [In]. repeat split.
  - do 2 right. left. reflexivity.
  - do 5 right. left. reflexivity.
  - do 8 right. left. reflexivity.
Qed.

(** C9.  [generate_metrics] is a function of the five readings: two
    machines that report the same CPU percentage, memory total, memory
    available, disk total and disk used for ["/"] get the same text,
    whatever else differs between them and whatever the handler state. *)
Theorem generate_metrics_depends_on_five_readings
    (os os' : psutil float) c vm vm' du du' (st st' : hstate) :
  cpu_percent os = inr c -> cpu_percent os' = inr c ->
  virtual_memory os = inr vm -> virtual_memory os' = inr vm' ->
  disk_usage os "/" = inr du -> disk_usage os' "/" = inr du' ->
  svmem_total vm = svmem_total vm' ->
  svmem_available vm = svmem_available vm' ->
  sdiskusage_total du = sdiskusage_total du' ->
  sdiskusage_used du = sdiskusage_used du' ->
  exists text,
    fst (generate_metrics str_float os st) = inr text
    /\ fst (generate_metrics str_float os' st') = inr text.
Proof.
  intros Hc Hc' Hvm Hvm' Hdu Hdu' Htotal Havailable Hdtotal Hdused.
  rewrite (generate_metrics_returns os c vm du st Hc Hvm Hdu).
  rewrite (generate_metrics_returns os' c vm' du' st' Hc' Hvm' Hdu').
  rewrite Htotal, Havailable, Hdtotal, Hdused.
  eexists. split; reflexivity.
Qed.

End Handler.

(** ** The server and the process *)

Section Server.

Context {float : Type}.
Variable str_float : float -> string.
Variable int : string -> option Z.

(** The outcome of a handler method, as [handle_one_request] reports it. *)
Lemma handle_one_request_GET (os : psutil float) (path : string) (st : hstate) :
  handle_one_request (MetricsHandler str_float) os "GET" path st
  = match do_GET str_float os path st with
    | (inr _, st') => (Sent (wire st'), st')
    | (inl e, st') => (Raised e (wire st'), st')
    end.
Proof.
  unfold handle_one_request, MetricsHandler.
  change ("do_" +:+ "GET") with "do_GET".
  now rewrite lookup_singleton_eq.
Qed.

Lemma handle_one_request_unsupported
    (os : psutil float) (command path : string) (st : hstate) :
  command <> "GET" ->
  handle_one_request (MetricsHandler str_float) os command path st
  = (Error_page 501, st).
Proof.
  intros Hcommand. unfold handle_one_request, MetricsHandler.
  rewrite lookup_singleton_ne; [reflexivity|].
  cbn [String.append]. intros Heq. apply Hcommand.
  now injection Heq.
Qed.

(** C5, as the code has it.  Only GET is routed: [handle_one_request]
    runs [do_GET] (200 on ["/"], 404 elsewhere) exactly when the method is
    [GET]; for every other method the class has no handler, nothing of
    [do_GET] runs (no log record, no read) and the library answers with
    its 501 error page. *)
Theorem handle_one_request_routes_only_GET
    (os : psutil float) (command path : string) (st : hstate) :
  handle_one_request (MetricsHandler str_float) os command path st
  = if String.eqb command "GET" then
      match do_GET str_float os path st with
      | (inr _, st') => (Sent (wire st'), st')
      | (inl e, st') => (Raised e (wire st'), st')
      end
    else (Error_page 501, st).
Proof.
  destruct (String.eqb_spec command "GET") as [->|Hcommand].
  - apply handle_one_request_GET.
  - now apply handle_one_request_unsupported.
Qed.

(** *** What one request does to the log *)

Lemma quiet_snoc (records : list log_record) (lvl : level) (msg : string) :
  quiet records -> lvl <> ERROR -> quiet (records ++ [(lvl, msg)]).
Proof.
  intros Hquiet Hlvl. apply Forall_app. split; [assumption|].
  now apply List.Forall_cons.
Qed.

(** [do_GET] on ["/"], written with the state [generate_metrics] leaves. *)
Lemma do_GET_root (os : psutil float) (st : hstate) :
  exists made,
    let st1 :=
      {| log := log st ++ [(INFO, "Received GET request for metrics.")];
         reads := reads st ++ made; wire := wire st |} in
    (exists e,
        fst (generate_metrics str_float os st) = inl e
        /\ do_GET str_float os "/" st = (inl e, st1))
    \/ (exists st2,
          do_GET str_float os "/" st = (inr tt, st2)
          /\ log st2 = log st1 /\ reads st2 = reads st1).
Proof.
  unfold do_GET. cbn [String.eqb Ascii.eqb Bool.eqb].
  unfold bind at 1. unfold logger_info, logger_emit at 1. unfold bind at 1.
  unfold generate_metrics, bind, os_call, ret.
  destruct (cpu_percent os) as [e|c]; cbn [log reads wire fst].
  { exists [read_cpu_percent]. left. now exists e. }
  destruct (virtual_memory os) as [e|vm]; cbn [log reads wire fst].
  { exists [read_cpu_percent; read_virtual_memory]. left. exists e.
    now rewrite <- !app_assoc. }
  exists [read_cpu_percent; read_virtual_memory; read_disk_usage "/"].
  destruct (disk_usage os "/") as [e|du]; cbn [log reads wire fst].
  - left. exists e. now rewrite <- !app_assoc.
  - right. eexists. split; [reflexivity|]. cbn [log reads].
    now rewrite <- !app_assoc.
Qed.

(** Whatever the request, the handler adds no ERROR record. *)
Lemma handle_one_request_quiet
    (os : psutil float) (command path : string) (st : hstate) :
  quiet (log st) ->
  quiet (log (snd (handle_one_request (MetricsHandler str_float) os command
                     path st))).
Proof.
  intros Hquiet.
  destruct (String.eqb_spec command "GET") as [->|Hcommand];
    [rewrite handle_one_request_GET
    |now rewrite handle_one_request_unsupported].
  destruct (String.eqb_spec path "/") as [->|Hpath].
  - destruct (do_GET_root os st)
      as [made [[e [_ Hrun]]|[st2 [Hrun [Hlog _]]]]]; rewrite Hrun;
      cbn [snd log]; [|rewrite Hlog; cbn [log]]; now apply quiet_snoc.
  - rewrite do_GET_unknown_path by assumption. cbn [snd log].
    now apply quiet_snoc.
Qed.

(** *** The loop with the default [handle_error] *)

(** Only [KeyboardInterrupt] leaves the loop. *)
Lemma serve_forever_left_by_interrupt (arrivals : list (event float)) :
  forall p e p',
    serve_forever str_float print_traceback arrivals p = (Some e, p') ->
    e = KeyboardInterrupt.
Proof.
  induction arrivals as [|[os command path|] later IH]; intros p e p';
    cbn [serve_forever].
  - discriminate.
  - destruct (handle_one_request _ os command path (enter p)) as [r st].
    destruct r as [sent|code|raised partial]; try apply IH.
    destruct raised; cbn [is_Exception]; [|apply IH].
    now intros [= <- _].
  - now intros [= <- _].
Qed.

(** Once the interrupt is among the arrivals, the loop is left. *)
Lemma serve_forever_interrupted (arrivals : list (event float)) :
  In Interrupt arrivals ->
  forall p, exists p',
    serve_forever str_float print_traceback arrivals p
    = (Some KeyboardInterrupt, p').
Proof.
  induction arrivals as [|[os command path|] later IH]; intros Hin p;
    cbn [serve_forever].
  - destruct Hin.
  - destruct Hin as [Hin|Hin]; [discriminate|].
    destruct (handle_one_request _ os command path (enter p)) as [r st].
    destruct r as [sent|code|raised partial]; try apply (IH Hin).
    destruct raised; cbn [is_Exception]; [|apply (IH Hin)].
    now eexists.
  - now eexists.
Qed.

(** The loop writes no ERROR record, whatever the hook. *)
Lemma serve_forever_quiet (hook : handle_error_hook)
    (arrivals : list (event float)) :
  forall p,
    quiet (p_log p) ->
    quiet (p_log (snd (serve_forever str_float hook arrivals p))).
Proof.
  induction arrivals as [|[os command path|] later IH]; intros p Hquiet;
    cbn [serve_forever]; try assumption.
  pose proof (handle_one_request_quiet os command path (enter p) Hquiet)
    as Hstep.
  destruct (handle_one_request _ os command path (enter p)) as [r st].
  cbn [snd] in Hstep.
  destruct r as [sent|code|raised partial]; try (apply IH; assumption).
  destruct (is_Exception raised); [|assumption].
  destruct hook; [apply IH|]; assumption.
Qed.

(** *** The run *)

Lemma run_started (hook : handle_error_hook) (environ : gmap string string)
    (server_bind : string -> Z -> option exn)
    (arrivals : list (event float)) (port : Z) :
  EXPORTER_PORT int environ = Some port ->
  server_bind (EXPORTER_HOST environ) port = None ->
  run str_float int hook environ server_bind arrivals
  = let host := EXPORTER_HOST environ in
    let p :=
      {| p_log :=
           [(INFO, "Starting exporter on " +:+ host +:+ ":" +:+ str_int port);
            (INFO, "Exporter running on http://" +:+ host +:+ ":"
                   +:+ str_int port +:+ "/")];
         p_reads := []; p_replies := []; p_tracebacks := [];
         p_listening := Some (host, port) |} in
    match serve_forever str_float hook arrivals p with
    | (Some e, p) => (Exited 0, except_clauses e p)
    | (None, p) => (Serving, p)
    end.
Proof. intros Hport Hbind. unfold run. now rewrite Hport, Hbind. Qed.

(** With the default hook a run whose socket was bound never logs an
    ERROR record: the [except Exception] clause is not reached from the
    loop. *)
Lemma main_quiet_once_bound (environ : gmap string string)
    (server_bind : string -> Z -> option exn)
    (arrivals : list (event float)) (port : Z) :
  EXPORTER_PORT int environ = Some port ->
  server_bind (EXPORTER_HOST environ) port = None ->
  quiet (p_log (snd (main str_float int environ server_bind arrivals))).
Proof.
  intros Hport Hbind. unfold main.
  rewrite (run_started _ _ _ _ _ Hport Hbind). cbv zeta.
  match goal with
  | |- context [serve_forever _ _ _ ?p0] =>
      pose proof (serve_forever_quiet print_traceback arrivals p0) as Hloop;
      pose proof (serve_forever_left_by_interrupt arrivals p0) as Hleft;
      destruct (serve_forever str_float print_traceback arrivals p0)
        as [[e|] p]
  end; cbn [snd] in *.
  - rewrite (Hleft e p eq_refl). cbn [except_clauses emit p_log].
    apply quiet_snoc; [|discriminate].
    apply Hloop. repeat apply List.Forall_cons; try apply List.Forall_nil;
      discriminate.
  - apply Hloop. repeat apply List.Forall_cons; try apply List.Forall_nil;
      discriminate.
Qed.

Lemma serve_forever_listening (hook : handle_error_hook)
    (arrivals : list (event float)) :
  forall p,
    p_listening (snd (serve_forever str_float hook arrivals p))
    = p_listening p.
Proof.
  induction arrivals as [|[os command path|] later IH]; intros p;
    cbn [serve_forever]; try reflexivity.
  destruct (handle_one_request _ os command path (enter p)) as [r st].
  destruct r as [sent|code|raised partial]; try (now rewrite IH).
  destruct (is_Exception raised); [|reflexivity].
  destruct hook; [now rewrite IH | reflexivity].
Qed.

(** The socket is only ever bound to the configured address. *)
Lemma run_listens_where_configured (hook : handle_error_hook)
    (environ : gmap string string) (server_bind : string -> Z -> option exn)
    (arrivals : list (event float)) (host : string) (port : Z) :
  p_listening (snd (run str_float int hook environ server_bind arrivals))
  = Some (host, port) ->
  host = EXPORTER_HOST environ /\ EXPORTER_PORT int environ = Some port.
Proof.
  unfold run. destruct (EXPORTER_PORT int environ) as [configured|];
    [|discriminate].
  destruct (server_bind (EXPORTER_HOST environ) configured) as [e|].
  - destruct e; discriminate.
  - match goal with
    | |- context [serve_forever _ _ _ ?p0] =>
        pose proof (serve_forever_listening hook arrivals p0) as Hsame;
        destruct (serve_forever str_float hook arrivals p0) as [[e|] p]
    end; cbn [snd] in *.
    + destruct e; cbn [except_clauses emit p_listening]; rewrite Hsame;
        cbn [emit listen p_listening]; now intros [= <- <-].
    + rewrite Hsame. cbn [emit listen p_listening]. now intros [= <- <-].
Qed.

(** C6.  When [EXPORTER_PORT] is set to a string that [int] rejects, the
    run ends with the uncaught [ValueError], exit status 1, before
    anything is logged and before the socket is bound; and no run listens
    on a port other than the one [int] read from the configuration. *)
Theorem malformed_port_fails_before_bind
    (hook : handle_error_hook) (environ : gmap string string)
    (server_bind : string -> Z -> option exn)
    (arrivals : list (event float)) (value : string) :
  environ !! "EXPORTER_PORT" = Some value ->
  int value = None ->
  run str_float int hook environ server_bind arrivals = (Exited 1, initial)
  /\ p_listening
       (snd (run str_float int hook environ server_bind arrivals)) = None
  /\ (forall environ' server_bind' arrivals' host port,
        p_listening
          (snd (run str_float int hook environ' server_bind' arrivals'))
        = Some (host, port) ->
        int (default "8081" (environ' !! "EXPORTER_PORT")) = Some port).
Proof.
  intros Hset Hint.
  assert (Hrun : run str_float int hook environ server_bind arrivals
                 = (Exited 1, initial)).
  { unfold run, EXPORTER_PORT. rewrite Hset. cbn [from_option id]. now rewrite Hint. }
  split; [exact Hrun|]. split; [now rewrite Hrun|].
  intros environ' server_bind' arrivals' host port Hlistening.
  now destruct (run_listens_where_configured _ _ _ _ _ _ Hlistening).
Qed.

(** C7, as the code has it.  Once the port is read, an interrupt during
    [serve_forever] is logged as shutdown and the process exits with
    status 0; a failure to bind that is an [Exception] is logged at ERROR
    level with the message of the exception, nothing is bound or served,
    and the process exits with status 0 as well. *)
Theorem main_exits_zero_after_except
    (environ : gmap string string) (server_bind : string -> Z -> option exn)
    (arrivals : list (event float)) (port : Z) :
  EXPORTER_PORT int environ = Some port ->
  (server_bind (EXPORTER_HOST environ) port = None ->
   In Interrupt arrivals ->
   exists p,
     main str_float int environ server_bind arrivals = (Exited 0, p)
     /\ last (p_log p) = Some (INFO, "Shutting down the exporter."))
  /\ (forall class_name message,
        server_bind (EXPORTER_HOST environ) port
        = Some (Exception class_name message) ->
        main str_float int environ server_bind arrivals
        = (Exited 0,
           {| p_log :=
                [(INFO, "Starting exporter on " +:+ EXPORTER_HOST environ
                        +:+ ":" +:+ str_int port);
                 (ERROR, "An error occurred: " +:+ message)];
              p_reads := []; p_replies := []; p_tracebacks := [];
              p_listening := None |})).
Proof.
  intros Hport. split.
  - intros Hbind Hin. unfold main.
    rewrite (run_started _ _ _ _ _ Hport Hbind). cbv zeta.
    match goal with
    | |- context [serve_forever _ _ _ ?p0] =>
        destruct (serve_forever_interrupted arrivals Hin p0) as [p' ->]
    end.
    eexists. split; [reflexivity|].
    cbn [except_clauses emit p_log]. apply last_snoc.
  - intros class_name message Hbind. unfold main, run.
    now rewrite Hport, Hbind.
Qed.

End Server.

(** ** The statements on concrete machines and runs *)

Lemma do_GET_root_serves_exposition_on_machine :
  cpu_percent machine = inr 425%N
  /\ virtual_memory machine = inr busy_memory
  /\ disk_usage machine "/" = inr root_disk
  /\ wire (snd (do_GET str_percentage machine "/" idle))
     = {| status := Some 200; headers := [("Content-type", "text/plain")];
          headers_ended := true;
          body := encode_utf8
                    (exposition "42.5" "16000000000" "8000000000"
                       "512000000000" "128000000000") |}.
Proof.
  do 3 (split; [reflexivity|]).
  destruct (do_GET_root_serves_exposition str_percentage machine 425%N
              busy_memory root_disk [] [] eq_refl eq_refl eq_refl)
    as [Hrun _].
  unfold idle. rewrite Hrun. reflexivity.
Defined.

Lemma do_GET_other_path_404_on_metrics :
  "/metrics" <> "/"
  /\ do_GET str_percentage machine "/metrics" idle
     = (inr tt,
        {| log := [(WARNING, "Received GET request for unknown path: /metrics")];
           reads := [];
           wire := {| status := Some 404; headers := [];
                      headers_ended := true; body := [] |} |}).
Proof.
  assert (Hpath : "/metrics" <> "/") by discriminate.
  split; [exact Hpath|].
  exact (do_GET_other_path_404 str_percentage machine "/metrics" [] [] Hpath).
Defined.

Lemma do_GET_other_path_reads_nothing_on_metrics :
  "/metrics" <> "/"
  /\ reads (snd (do_GET str_percentage machine "/metrics" idle)) = []
  /\ do_GET str_percentage machine "/metrics" idle
     = do_GET str_percentage restricted_machine "/metrics" idle.
Proof.
  assert (Hpath : "/metrics" <> "/") by discriminate.
  split; [exact Hpath|].
  destruct (do_GET_other_path_reads_nothing str_percentage machine
              restricted_machine "/metrics" idle Hpath) as (Hreads & Hsame & _).
  split; [exact Hreads | exact Hsame].
Defined.

Lemma generate_metrics_used_le_total_on_machine :
  0 <= svmem_available busy_memory <= svmem_total busy_memory
  /\ sdiskusage_used root_disk <= sdiskusage_total root_disk
  /\ exists memory_total memory_used disk_total disk_used,
       fst (generate_metrics str_percentage machine idle)
       = inr (join NL (metrics_lines str_percentage 425%N memory_total
                         memory_used disk_total disk_used))
       /\ memory_used <= memory_total
       /\ disk_used <= disk_total.
Proof.
  assert (Hmem : 0 <= svmem_available busy_memory <= svmem_total busy_memory)
    by (cbn; lia).
  assert (Hdisk : sdiskusage_used root_disk <= sdiskusage_total root_disk)
    by (cbn; lia).
  split; [exact Hmem|]. split; [exact Hdisk|].
  destruct (generate_metrics_used_le_total str_percentage machine 425%N
              busy_memory root_disk idle eq_refl eq_refl eq_refl Hmem Hdisk)
    as (mt & mu & dt & du & Htext & _ & _ & _ & _ & Hm & Hd).
  exists mt, mu, dt, du. split; [exact Htext|]. split; [exact Hm | exact Hd].
Defined.

Lemma do_GET_example_lines_on_machine :
  str_percentage 425%N = "42.5"
  /\ svmem_total busy_memory = 16000000000
  /\ svmem_available busy_memory = 8000000000
  /\ exists text,
       body (wire (snd (do_GET str_percentage machine "/" idle)))
       = encode_utf8 text
       /\ In "cpu_usage 42.5" (split_lines text)
       /\ In "memory_total 16000000000" (split_lines text)
       /\ In "memory_used 8000000000" (split_lines text).
Proof.
  do 3 (split; [reflexivity|]).
  destruct (do_GET_example_lines str_percentage machine 425%N busy_memory
              root_disk [] [] eq_refl eq_refl eq_refl eq_refl eq_refl eq_refl)
    as (text & Hwire & Hcpu & Htotal & Hused).
  exists text. unfold idle. rewrite Hwire.
  split; [reflexivity|]. split; [exact Hcpu|]. split; [exact Htotal | exact Hused].
Defined.

Lemma generate_metrics_same_text_on_both_machines :
  svmem_used busy_memory <> 7000000000
  /\ exists text,
       fst (generate_metrics str_percentage machine idle) = inr text
       /\ fst (generate_metrics str_percentage machine' idle) = inr text.
Proof.
  split; [discriminate|].
  exact (generate_metrics_depends_on_five_readings str_percentage
           machine machine' 425%N busy_memory _ root_disk _ idle idle
           eq_refl eq_refl eq_refl eq_refl eq_refl eq_refl
           eq_refl eq_refl eq_refl eq_refl).
Defined.

(** A POST request for ["/"] gets the 501 page of the library, not the
    metrics: the sentence "any method is routed the same as GET" fails. *)
Lemma post_is_not_routed_like_GET :
  ~ routed_like_GET str_percentage machine "POST" "/".
Proof.
  intros Hrouted. specialize (Hrouted idle).
  vm_compute in Hrouted. discriminate Hrouted.
Qed.

Lemma malformed_port_fails_before_bind_on_80a :
  ({[ "EXPORTER_PORT" := "80a" ]} : gmap string string) !! "EXPORTER_PORT"
  = Some "80a"
  /\ ascii_int "80a" = None
  /\ main str_percentage ascii_int {[ "EXPORTER_PORT" := "80a" ]}
       bind_succeeds [Request machine "GET" "/"]
     = (Exited 1, initial).
Proof.
  assert (Hset : ({[ "EXPORTER_PORT" := "80a" ]} : gmap string string)
                 !! "EXPORTER_PORT" = Some "80a") by reflexivity.
  assert (Hint : ascii_int "80a" = None) by reflexivity.
  split; [exact Hset|]. split; [exact Hint|].
  exact (proj1 (malformed_port_fails_before_bind str_percentage ascii_int
                  print_traceback _ bind_succeeds [Request machine "GET" "/"]
                  "80a" Hset Hint)).
Defined.

(** With the port taken, the process logs the error and exits with
    status 0: it does not exit with a non-zero status. *)
Lemma bind_failure_exits_zero :
  main str_percentage ascii_int ∅ address_in_use []
  = (Exited 0,
     {| p_log := [(INFO, "Starting exporter on 0.0.0.0:8081");
                  (ERROR, "An error occurred: [Errno 98] Address already in use")];
        p_reads := []; p_replies := []; p_tracebacks := [];
        p_listening := None |})
  /\ ~ exits_non_zero (main str_percentage ascii_int ∅ address_in_use []).
Proof.
  split; [reflexivity|].
  intros [n [Hexit Hn]]. vm_compute in Hexit.
  injection Hexit as <-. now apply Hn.
Qed.

Lemma main_exits_zero_after_except_on_default_port :
  EXPORTER_PORT ascii_int ∅ = Some 8081
  /\ (exists p,
        main str_percentage ascii_int ∅ bind_succeeds
          [Request machine "GET" "/"; Interrupt]
        = (Exited 0, p)
        /\ last (p_log p) = Some (INFO, "Shutting down the exporter."))
  /\ fst (main str_percentage ascii_int ∅ address_in_use
            [Request machine "GET" "/"; Interrupt])
     = Exited 0.
Proof.
  assert (Hport : EXPORTER_PORT ascii_int ∅ = Some 8081) by reflexivity.
  split; [exact Hport|]. split.
  - refine (proj1 (main_exits_zero_after_except str_percentage ascii_int ∅
                     bind_succeeds _ 8081 Hport) eq_refl _).
    right. left. reflexivity.
  - rewrite (proj2 (main_exits_zero_after_except str_percentage ascii_int ∅
                      address_in_use [Request machine "GET" "/"; Interrupt]
                      8081 Hport) "OSError"
               "[Errno 98] Address already in use" eq_refl).
    reflexivity.
Defined.

(** * Further properties of the code *)

(** ** [generate_metrics]: reads, failures, the text *)

Lemma str_int_inj (n n' : Z) : str_int n = str_int n' -> n = n'.
Proof.
  unfold str_int. intros Heq.
  assert (Hparse : forall z,
             NilZero.int_of_string (NilZero.string_of_int (Z.to_int z))
             = Some (Z.to_int z)).
  { intros z. apply NilZero.isi; destruct z; cbn [Z.to_int]; try discriminate;
      intros [= Hnil]; now apply (DecimalPos.Unsigned.to_uint_nonnil p). }
  apply DecimalZ.to_int_inj.
  pose proof (Hparse n) as Hn. rewrite Heq, Hparse in Hn. congruence.
Qed.

Section Sampler.

Context {float : Type}.
Variable str_float : float -> string.

(** The four ways [generate_metrics] can go, each from any state. *)
Lemma generate_metrics_cases (os : psutil float) :
  (exists e,
      cpu_percent os = inl e
      /\ forall st, generate_metrics str_float os st
                    = (inl e, after_reads st [read_cpu_percent]))
  \/ (exists c e,
        cpu_percent os = inr c /\ virtual_memory os = inl e
        /\ forall st, generate_metrics str_float os st
                      = (inl e, after_reads st
                                  [read_cpu_percent; read_virtual_memory]))
  \/ (exists c vm e,
        cpu_percent os = inr c /\ virtual_memory os = inr vm
        /\ disk_usage os "/" = inl e
        /\ forall st, generate_metrics str_float os st
                      = (inl e, after_reads st metric_reads))
  \/ (exists c vm du,
        cpu_percent os = inr c /\ virtual_memory os = inr vm
        /\ disk_usage os "/" = inr du
        /\ forall st, generate_metrics str_float os st
                      = (inr (join NL (metrics_lines str_float c
                                         (svmem_total vm)
                                         (svmem_total vm - svmem_available vm)
                                         (sdiskusage_total du)
                                         (sdiskusage_used du))),
                         after_reads st metric_reads)).
Proof.
  destruct (cpu_percent os) as [e|c] eqn:Hcpu.
  { left. exists e. split; [reflexivity|]. intros st.
    unfold generate_metrics, bind, os_call. now rewrite Hcpu. }
  destruct (virtual_memory os) as [e|vm] eqn:Hvm.
  { right. left. exists c, e. do 2 (split; [reflexivity|]). intros st.
    unfold generate_metrics, bind, os_call, after_reads. rewrite Hcpu, Hvm.
    cbn [log reads wire]. now rewrite <- !app_assoc. }
  destruct (disk_usage os "/") as [e|du] eqn:Hdu.
  { do 2 right. left. exists c, vm, e. do 3 (split; [reflexivity|]).
    intros st.
    unfold generate_metrics, bind, os_call, after_reads, metric_reads.
    rewrite Hcpu, Hvm, Hdu. cbn [log reads wire]. now rewrite <- !app_assoc. }
  do 3 right. exists c, vm, du. do 3 (split; [reflexivity|]). intros st.
  now apply generate_metrics_returns.
Qed.

(** X1.  Whatever the machine does, [generate_metrics] leaves the log and
    the response alone and reads the operating system in the order CPU,
    memory, disk of ["/"], stopping at the first read that raises: after a
    failing CPU read it makes no other read, after a failing memory read
    it does not query the disk, and otherwise it makes the three reads.
    It never asks for the disk usage of another path. *)
Theorem generate_metrics_reads_in_order (os : psutil float) (st : hstate) :
  snd (generate_metrics str_float os st)
  = {| log := log st;
       reads :=
         reads st
         ++ match cpu_percent os with
            | inl _ => [read_cpu_percent]
            | inr _ =>
                match virtual_memory os with
                | inl _ => [read_cpu_percent; read_virtual_memory]
                | inr _ =>
                    [read_cpu_percent; read_virtual_memory;
                     read_disk_usage "/"]
                end
            end;
       wire := wire st |}.
Proof.
  destruct (generate_metrics_cases os)
    as [(e & Hcpu & Hrun)|[(c & e & Hcpu & Hvm & Hrun)
       |[(c & vm & e & Hcpu & Hvm & _ & Hrun)
        |(c & vm & du & Hcpu & Hvm & _ & Hrun)]]];
    rewrite Hrun, Hcpu; try rewrite Hvm; reflexivity.
Qed.

(** X2.  [generate_metrics] raises exactly when one of its reads raises,
    and then it raises the exception of the first read that failed,
    unchanged: nothing is replaced by a default value. *)
Theorem generate_metrics_raises_iff (os : psutil float) (st : hstate) (e : exn) :
  fst (generate_metrics str_float os st) = inl e
  <-> cpu_percent os = inl e
      \/ (exists c, cpu_percent os = inr c /\ virtual_memory os = inl e)
      \/ (exists c vm,
            cpu_percent os = inr c /\ virtual_memory os = inr vm
            /\ disk_usage os "/" = inl e).
Proof.
  destruct (generate_metrics_cases os)
    as [(e0 & Hcpu & Hrun)|[(c & e0 & Hcpu & Hvm & Hrun)
       |[(c & vm & e0 & Hcpu & Hvm & Hdu & Hrun)
        |(c & vm & du & Hcpu & Hvm & Hdu & Hrun)]]];
    rewrite Hrun; cbn [fst]; rewrite Hcpu; try rewrite Hvm; try rewrite Hdu.
  - split; [intros [= ->]; now left|].
    intros [[= ->]|[(c & [=] & _)|(c & vm & [=] & _)]]. reflexivity.
  - split; [intros [= ->]; right; left; now exists c|].
    intros [[=]|[(c' & _ & [= ->])|(c' & vm & _ & [=] & _)]]. reflexivity.
  - split; [intros [= ->]; do 2 right; now exists c, vm|].
    intros [[=]|[(c' & _ & [=])|(c' & vm' & _ & _ & [= ->])]]. reflexivity.
  - split; [discriminate|].
    intros [[=]|[(c' & _ & [=])|(c' & vm' & _ & _ & [=])]].
Qed.

(** X3.  The text keeps the readings apart: when two machines get the
    same text from [generate_metrics] (the CPU readings being printed on
    one line), they reported the same memory total and available, the same
    disk total and used, and CPU readings that print alike. *)
Theorem generate_metrics_text_determines_readings
    (os os' : psutil float) c vm du c' vm' du' (st st' : hstate) :
  cpu_percent os = inr c -> cpu_percent os' = inr c' ->
  virtual_memory os = inr vm -> virtual_memory os' = inr vm' ->
  disk_usage os "/" = inr du -> disk_usage os' "/" = inr du' ->
  occurs LF (str_float c) = false -> occurs LF (str_float c') = false ->
  fst (generate_metrics str_float os st)
  = fst (generate_metrics str_float os' st') ->
  str_float c = str_float c'
  /\ svmem_total vm = svmem_total vm'
  /\ svmem_available vm = svmem_available vm'
  /\ sdiskusage_total du = sdiskusage_total du'
  /\ sdiskusage_used du = sdiskusage_used du'.
Proof.
  intros Hc Hc' Hvm Hvm' Hdu Hdu' Hline Hline'.
  rewrite (generate_metrics_returns str_float os c vm du st Hc Hvm Hdu).
  rewrite (generate_metrics_returns str_float os' c' vm' du' st' Hc' Hvm' Hdu').
  cbn [fst]. intros Htext.
  assert (Hlines :
            split_lines (join NL (metrics_lines str_float c (svmem_total vm)
                                    (svmem_total vm - svmem_available vm)
                                    (sdiskusage_total du) (sdiskusage_used du)))
            = split_lines (join NL (metrics_lines str_float c' (svmem_total vm')
                                      (svmem_total vm' - svmem_available vm')
                                      (sdiskusage_total du')
                                      (sdiskusage_used du'))))
    by congruence.
  clear Htext. rename Hlines into Htext.
  rewrite !metrics_lines_split in Htext by assumption.
  unfold metrics_lines in Htext. cbn [String.append] in Htext.
  injection Htext as Hcpu Htotal Hused Hdtotal Hdused.
  apply str_int_inj in Htotal, Hused, Hdtotal, Hdused.
  repeat split; try assumption. lia.
Qed.

(** X4.  Nothing clamps [memory_used]: when the machine reports more
    available than total memory, the ninth line of the text carries the
    negative difference. *)
Theorem generate_metrics_negative_memory_used
    (os : psutil float) c vm du (st : hstate) :
  cpu_percent os = inr c ->
  virtual_memory os = inr vm ->
  disk_usage os "/" = inr du ->
  occurs LF (str_float c) = false ->
  svmem_total vm < svmem_available vm ->
  exists text,
    fst (generate_metrics str_float os st) = inr text
    /\ nth_error (split_lines text) 8
       = Some ("memory_used -"
               +:+ str_int (svmem_available vm - svmem_total vm)).
Proof.
  intros Hc Hvm Hdu Hline Hmore.
  rewrite (generate_metrics_returns str_float os c vm du st Hc Hvm Hdu).
  eexists. split; [reflexivity|].
  rewrite metrics_lines_split by assumption.
  cbn [metrics_lines nth_error].
  assert (Hminus : str_int (svmem_total vm - svmem_available vm)
                   = String "-" (str_int (svmem_available vm - svmem_total vm))).
  { destruct (svmem_total vm - svmem_available vm) as [|p|p] eqn:Hdiff;
      try lia.
    replace (svmem_available vm - svmem_total vm) with (Z.pos p) by lia.
    reflexivity. }
  now rewrite Hminus.
Qed.

(** X5.  The body of a served text has fifteen lines, and its lines that
    start with [# TYPE] are the five gauge declarations in the order
    [cpu_usage], [memory_total], [memory_used], [disk_total],
    [disk_used]. *)
Theorem generate_metrics_type_lines
    (os : psutil float) c vm du (st : hstate) :
  cpu_percent os = inr c ->
  virtual_memory os = inr vm ->
  disk_usage os "/" = inr du ->
  occurs LF (str_float c) = false ->
  exists text,
    fst (generate_metrics str_float os st) = inr text
    /\ length (split_lines text) = 15%nat
    /\ List.filter (String.prefix "# TYPE ") (split_lines text)
       = [ "# TYPE cpu_usage gauge"; "# TYPE memory_total gauge";
           "# TYPE memory_used gauge"; "# TYPE disk_total gauge";
           "# TYPE disk_used gauge" ].
Proof.
  intros Hc Hvm Hdu Hline.
  rewrite (generate_metrics_returns str_float os c vm du st Hc Hvm Hdu).
  eexists. split; [reflexivity|].
  rewrite metrics_lines_split by assumption.
  split; [reflexivity|].
  unfold metrics_lines.
  generalize (str_float c), (str_int (svmem_total vm)),
    (str_int (svmem_total vm - svmem_available vm)),
    (str_int (sdiskusage_total du)), (str_int (sdiskusage_used du)).
  intros. vm_compute. reflexivity.
Qed.

End Sampler.

(** ** [do_GET] and the dispatch: what a request leaves behind *)

Section Responses.

Context {float : Type}.
Variable str_float : float -> string.

(** [do_GET] on ["/"], from any state: it raises after the INFO record
    and some reads, the response untouched, or it serves the text. *)
Lemma do_GET_root_cases (os : psutil float) :
  (exists e made,
      made `prefix_of` metric_reads
      /\ forall st,
           do_GET str_float os "/" st
           = (inl e,
              {| log := log st ++ [(INFO, "Received GET request for metrics.")];
                 reads := reads st ++ made; wire := wire st |}))
  \/ (exists text,
        forall st,
          do_GET str_float os "/" st
          = (inr tt,
             {| log := log st ++ [(INFO, "Received GET request for metrics.")];
                reads := reads st ++ metric_reads;
                wire :=
                  {| status := Some 200;
                     headers := headers (wire st)
                                ++ [("Content-type", "text/plain")];
                     headers_ended := true;
                     body := body (wire st) ++ encode_utf8 text |} |})).
Proof.
  assert (Hfail : forall e made,
             (forall st, generate_metrics str_float os st
                         = (inl e, after_reads st made)) ->
             forall st,
               do_GET str_float os "/" st
               = (inl e,
                  {| log := log st
                            ++ [(INFO, "Received GET request for metrics.")];
                     reads := reads st ++ made; wire := wire st |})).
  { intros e made Hrun st. unfold do_GET. cbn [String.eqb Ascii.eqb Bool.eqb].
    unfold bind at 1. unfold logger_info, logger_emit at 1. unfold bind at 1.
    now rewrite Hrun. }
  destruct (generate_metrics_cases str_float os)
    as [(e & _ & Hrun)|[(c & e & _ & _ & Hrun)
       |[(c & vm & e & _ & _ & _ & Hrun)|(c & vm & du & Hc & Hvm & Hdu & _)]]].
  - left. exists e, [read_cpu_percent]. split; [|now apply Hfail].
    now exists [read_virtual_memory; read_disk_usage "/"].
  - left. exists e, [read_cpu_percent; read_virtual_memory].
    split; [|now apply Hfail]. now exists [read_disk_usage "/"].
  - left. exists e, metric_reads. split; [now exists [] | now apply Hfail].
  - right. eexists. intros st.
    now rewrite (do_GET_root_returns str_float os c vm du st Hc Hvm Hdu).
Qed.

(** What handling one request does to a state: it appends at most one
    record, never an ERROR, and an initial segment of the three reads;
    the reply and the response depend on the response so far only. *)
Lemma handle_one_request_effect (os : psutil float) (command path : string) :
  exists (records : list log_record) (made : list os_read)
         (k : response -> reply * response),
    (forall st,
        handle_one_request (MetricsHandler str_float) os command path st
        = (fst (k (wire st)),
           {| log := log st ++ records; reads := reads st ++ made;
              wire := snd (k (wire st)) |}))
    /\ quiet records
    /\ (length records <= 1)%nat
    /\ made `prefix_of` metric_reads.
Proof.
  destruct (String.eqb_spec command "GET") as [->|Hcommand].
  - destruct (String.eqb_spec path "/") as [->|Hpath].
    + destruct (do_GET_root_cases os) as [(e & made & Hmade & Hrun)|[text Hrun]].
      * exists [(INFO, "Received GET request for metrics.")], made,
               (fun w => (Raised e w, w)).
        split; [|split; [|split; [cbn; lia | exact Hmade]]].
        -- intros st. now rewrite handle_one_request_GET, Hrun.
        -- apply List.Forall_cons; [discriminate | apply List.Forall_nil].
      * exists [(INFO, "Received GET request for metrics.")], metric_reads,
               (fun w =>
                  let sent :=
                    {| status := Some 200;
                       headers := headers w ++ [("Content-type", "text/plain")];
                       headers_ended := true;
                       body := body w ++ encode_utf8 text |} in
                  (Sent sent, sent)).
        split; [|split; [|split; [cbn; lia | now exists []]]].
        -- intros st. now rewrite handle_one_request_GET, Hrun.
        -- apply List.Forall_cons; [discriminate | apply List.Forall_nil].
    + exists [(WARNING, "Received GET request for unknown path: " +:+ path)],
             [],
             (fun w =>
                let sent :=
                  {| status := Some 404; headers := headers w;
                     headers_ended := true; body := body w |} in
                (Sent sent, sent)).
      split; [|split; [|split; [cbn; lia | now exists metric_reads]]].
      * intros st.
        rewrite handle_one_request_GET, do_GET_unknown_path by assumption.
        cbn [fst snd wire log reads]. now rewrite app_nil_r.
      * apply List.Forall_cons; [discriminate | apply List.Forall_nil].
  - exists [], [], (fun w => (Error_page 501, w)).
    split; [|split; [apply List.Forall_nil
                    |split; [cbn; lia | now exists metric_reads]]].
    intros st. rewrite handle_one_request_unsupported by assumption.
    cbn [fst snd]. rewrite !app_nil_r. now destruct st.
Qed.

(** X7.  Every call of [do_GET] appends exactly one record to the log,
    whether it returns or raises: the INFO record of a metrics request on
    ["/"], the WARNING record naming the path otherwise. *)
Theorem do_GET_logs_one_record (os : psutil float) (path : string) (st : hstate) :
  log (snd (do_GET str_float os path st))
  = log st
    ++ [ if String.eqb path "/"
         then (INFO, "Received GET request for metrics.")
         else (WARNING, "Received GET request for unknown path: " +:+ path) ].
Proof.
  destruct (String.eqb_spec path "/") as [->|Hpath].
  - destruct (do_GET_root_cases os) as [(e & reads_made & _ & Hrun)|[text Hrun]];
      now rewrite Hrun.
  - now rewrite do_GET_unknown_path by assumption.
Qed.


End Responses.

(** ** The loop and the process as a whole *)

Section Lifecycle.

Context {float : Type}.
Variable str_float : float -> string.
Variable int : string -> option Z.

(** Serving what arrives in two batches. *)
Lemma serve_forever_app (hook : handle_error_hook)
    (before after : list (event float)) :
  forall p,
    serve_forever str_float hook (before ++ after) p
    = match serve_forever str_float hook before p with
      | (None, p') => serve_forever str_float hook after p'
      | (Some e, p') => (Some e, p')
      end.
Proof.
  induction before as [|[os command path|] before IH]; intros p;
    cbn [serve_forever app]; try reflexivity.
  destruct (handle_one_request _ os command path (enter p)) as [r st].
  destruct r as [sent|code|raised partial]; try apply IH.
  destruct (is_Exception raised); [|reflexivity].
  destruct hook; [apply IH | reflexivity].
Qed.

(** One request, seen from the process. *)
Lemma handle_one_request_enter (os : psutil float) (command path : string) :
  exists (records : list log_record) (made : list os_read),
    (forall p, exists w,
        handle_one_request (MetricsHandler str_float) os command path (enter p)
        = (answer str_float (os, command, path),
           {| log := p_log p ++ records; reads := p_reads p ++ made;
              wire := w |}))
    /\ quiet records
    /\ made `prefix_of` metric_reads.
Proof.
  destruct (handle_one_request_effect str_float os command path)
    as (records & made & k & Hrun & Hquiet & _ & Hmade).
  exists records, made. split; [|now split].
  intros p. exists (snd (k no_response)).
  unfold answer. now rewrite (Hrun (enter p)), (Hrun idle).
Qed.


(** Every read made while serving is one of the three of
    [generate_metrics]. *)
Lemma serve_forever_reads (hook : handle_error_hook)
    (arrivals : list (event float)) :
  forall p,
    Forall (fun r => In r metric_reads) (p_reads p) ->
    Forall (fun r => In r metric_reads)
      (p_reads (snd (serve_forever str_float hook arrivals p))).
Proof.
  induction arrivals as [|[os command path|] later IH]; intros p Hreads;
    cbn [serve_forever]; try assumption.
  destruct (handle_one_request_enter os command path)
    as (records & made & Hrun & _ & [rest Hmade]).
  destruct (Hrun p) as [w ->].
  set (p' := leave p _ _).
  assert (Hstep : Forall (fun r => In r metric_reads) (p_reads p')).
  { cbn [p' leave p_reads reads]. apply Forall_app. split; [assumption|].
    apply List.Forall_forall. intros r Hr. rewrite Hmade.
    apply in_or_app. now left. }
  destruct (answer str_float (os, command, path)) as [sent|code|raised partial];
    try (now apply IH).
  destruct (is_Exception raised); [|assumption].
  destruct hook; [now apply IH | assumption].
Qed.



(** X10.  Nothing that arrives after the interrupt is handled: the run is
    the one in which the interrupt came last. *)
Theorem run_ignores_arrivals_after_interrupt
    (hook : handle_error_hook) (environ : gmap string string)
    (server_bind : string -> Z -> option exn)
    (before after : list (event float)) :
  run str_float int hook environ server_bind (before ++ Interrupt :: after)
  = run str_float int hook environ server_bind (before ++ [Interrupt]).
Proof.
  unfold run. destruct (EXPORTER_PORT int environ) as [port|]; [|reflexivity].
  destruct (server_bind (EXPORTER_HOST environ) port); [reflexivity|].
  rewrite !serve_forever_app.
  now destruct (serve_forever str_float hook before _) as [[e|] p].
Qed.

(** X11.  The exit status is 1 exactly when [int] rejects the configured
    port, and a process that exits otherwise exits with status 0: after a
    failed bind, after an interrupt, after anything that leaves the
    loop. *)
Theorem run_exit_status
    (hook : handle_error_hook) (environ : gmap string string)
    (server_bind : string -> Z -> option exn)
    (arrivals : list (event float)) :
  (fst (run str_float int hook environ server_bind arrivals) = Exited 1
   <-> EXPORTER_PORT int environ = None)
  /\ (forall n,
        fst (run str_float int hook environ server_bind arrivals) = Exited n ->
        n = 0 \/ n = 1).
Proof.
  unfold run. destruct (EXPORTER_PORT int environ) as [port|].
  - destruct (server_bind (EXPORTER_HOST environ) port).
    + cbn [fst]. split; [split; discriminate|]. intros n [= <-]. now left.
    + destruct (serve_forever str_float hook arrivals _) as [[e|] p];
        cbn [fst]; (split; [split; discriminate|]); intros n [=].
      now left.
  - cbn [fst]. split; [now split|]. intros n [= <-]. now right.
Qed.

(** X12.  The only ERROR record the program ever writes is the one for a
    failure to bind: the log of a run holds an ERROR record exactly when
    the port was read and binding raised an [Exception], and the record
    then carries the message of that exception. *)
Theorem main_logs_error_iff_bind_fails
    (environ : gmap string string) (server_bind : string -> Z -> option exn)
    (arrivals : list (event float)) (text : string) :
  In (ERROR, text)
    (p_log (snd (main str_float int environ server_bind arrivals)))
  <-> exists port class_name message,
        EXPORTER_PORT int environ = Some port
        /\ server_bind (EXPORTER_HOST environ) port
           = Some (Exception class_name message)
        /\ text = "An error occurred: " +:+ message.
Proof.
  destruct (EXPORTER_PORT int environ) as [port|] eqn:Hport.
  - destruct (server_bind (EXPORTER_HOST environ) port) as [e|] eqn:Hbind.
    + unfold main, run. rewrite Hport, Hbind.
      destruct e as [|class_name message];
        cbn [snd except_clauses emit initial p_log app In].
      * split.
        -- intros [[=]|[[=]|[]]].
        -- intros (port' & c & m & [= <-] & Hbind' & _).
           rewrite Hbind in Hbind'. discriminate.
      * split.
        -- intros [[=]|[[= <-]|[]]]. now exists port, class_name, message.
        -- intros (port' & c & m & [= <-] & Hbind' & ->).
           rewrite Hbind in Hbind'. injection Hbind' as <- <-.
           right. now left.
    + split.
      * intros Hin.
        pose proof (main_quiet_once_bound str_float int environ server_bind
                      arrivals port Hport Hbind) as Hquiet.
        unfold quiet in Hquiet. rewrite List.Forall_forall in Hquiet.
        now destruct (Hquiet _ Hin).
      * intros (port' & c & m & [= <-] & Hbind' & _).
        rewrite Hbind in Hbind'. discriminate.
  - unfold main, run. rewrite Hport. cbn [snd initial p_log In].
    split; [intros [] | intros (port' & _ & _ & [=] & _)].
Qed.


(** X14.  Over a whole run, whatever arrives, the process reads nothing
    from the operating system but the CPU percentage, the virtual memory
    and the disk usage of ["/"]. *)
Theorem run_reads_only_the_three_metrics
    (hook : handle_error_hook) (environ : gmap string string)
    (server_bind : string -> Z -> option exn)
    (arrivals : list (event float)) (r : os_read) :
  In r (p_reads (snd (run str_float int hook environ server_bind arrivals))) ->
  r = read_cpu_percent \/ r = read_virtual_memory \/ r = read_disk_usage "/".
Proof.
  assert (Hall : Forall (fun r => In r metric_reads)
            (p_reads (snd (run str_float int hook environ server_bind
                             arrivals)))).
  { unfold run. destruct (EXPORTER_PORT int environ) as [port|];
      [|apply List.Forall_nil].
    destruct (server_bind (EXPORTER_HOST environ) port) as [e|].
    - destruct e; apply List.Forall_nil.
    - match goal with
      | |- context [serve_forever _ _ _ ?p0] =>
          pose proof (serve_forever_reads hook arrivals p0
                        (List.Forall_nil _)) as Hloop;
          destruct (serve_forever str_float hook arrivals p0) as [[e|] p]
      end; cbn [snd] in *; [destruct e|]; exact Hloop. }
  intros Hin. rewrite List.Forall_forall in Hall.
  destruct (Hall r Hin) as [<-|[<-|[<-|[]]]]; auto.
Qed.

End Lifecycle.

(** ** The further properties on concrete machines and runs *)

Lemma generate_metrics_text_determines_readings_on_machines :
  fst (generate_metrics str_percentage machine idle)
  = fst (generate_metrics str_percentage machine' idle)
  /\ svmem_available busy_memory = 8000000000
  /\ sdiskusage_used root_disk = 128000000000.
Proof.
  assert (Hsame : fst (generate_metrics str_percentage machine idle)
                  = fst (generate_metrics str_percentage machine' idle))
    by reflexivity.
  split; [exact Hsame|].
  destruct (generate_metrics_text_determines_readings str_percentage
              machine machine' 425%N busy_memory root_disk 425%N _ _ idle idle
              eq_refl eq_refl eq_refl eq_refl eq_refl eq_refl
              eq_refl eq_refl Hsame)
    as (_ & _ & Havailable & _ & Hused).
  split; [exact Havailable | exact Hused].
Defined.

Lemma generate_metrics_negative_memory_used_on_odd_machine :
  svmem_total odd_memory < svmem_available odd_memory
  /\ exists text,
       fst (generate_metrics str_percentage odd_machine idle) = inr text
       /\ nth_error (split_lines text) 8 = Some "memory_used -500".
Proof.
  assert (Hmore : svmem_total odd_memory < svmem_available odd_memory)
    by (cbn; lia).
  split; [exact Hmore|].
  exact (generate_metrics_negative_memory_used str_percentage odd_machine
           0%N odd_memory root_disk idle eq_refl eq_refl eq_refl eq_refl
           Hmore).
Defined.

Lemma generate_metrics_type_lines_on_machine :
  occurs LF (str_percentage 425%N) = false
  /\ exists text,
       fst (generate_metrics str_percentage machine idle) = inr text
       /\ length (split_lines text) = 15%nat
       /\ List.filter (String.prefix "# TYPE ") (split_lines text)
          = [ "# TYPE cpu_usage gauge"; "# TYPE memory_total gauge";
              "# TYPE memory_used gauge"; "# TYPE disk_total gauge";
              "# TYPE disk_used gauge" ].
Proof.
  split; [reflexivity|].
  exact (generate_metrics_type_lines str_percentage machine 425%N busy_memory
           root_disk idle eq_refl eq_refl eq_refl eq_refl).
Defined.




Lemma run_reads_only_the_three_metrics_on_machine :
  In read_virtual_memory
    (p_reads (snd (run str_percentage ascii_int print_traceback ∅
                     bind_succeeds [Request machine "GET" "/"])))
  /\ (read_virtual_memory = read_cpu_percent
      \/ read_virtual_memory = read_virtual_memory
      \/ read_virtual_memory = read_disk_usage "/").
Proof.
  assert (Hin : In read_virtual_memory
                  (p_reads (snd (run str_percentage ascii_int print_traceback ∅
                                   bind_succeeds [Request machine "GET" "/"]))))
    by (vm_compute; right; left; reflexivity).
  split; [exact Hin|].
  exact (run_reads_only_the_three_metrics str_percentage ascii_int
           print_traceback ∅ bind_succeeds [Request machine "GET" "/"]
           read_virtual_memory Hin).
Defined.

(** ** The server when a handler raises *)

Section Failures.

Context {float : Type}.
Variable str_float : float -> string.
Variable int : string -> option Z.

(** *** Tame computations *)

Lemma tame_ret {A : Type} (a : A) : tame (ret a).
Proof.
  exists (inr a), [], [], (fun w => w). split; [apply List.Forall_nil|].
  intros st. unfold ret. rewrite !app_nil_r. now destruct st.
Qed.

Lemma tame_logger_emit (lvl : level) (msg : string) :
  lvl <> ERROR -> tame (logger_emit lvl msg).
Proof.
  intros Hlvl. exists (inr tt), [(lvl, msg)], [], (fun w => w).
  split; [now apply List.Forall_cons|].
  intros st. unfold logger_emit. now rewrite app_nil_r.
Qed.

Lemma tame_modify_wire (f : response -> response) : tame (modify_wire f).
Proof.
  exists (inr tt), [], [], f. split; [apply List.Forall_nil|].
  intros st. unfold modify_wire. now rewrite !app_nil_r.
Qed.

Lemma tame_os_call {A : Type} (what : os_read) (result : exn + A) :
  tame (os_call what result).
Proof.
  exists result, [], [what], (fun w => w). split; [apply List.Forall_nil|].
  intros st. unfold os_call. now rewrite app_nil_r.
Qed.

Lemma tame_sendall (outcome : option exn) : tame (sendall outcome).
Proof.
  exists (match outcome with Some e => inl e | None => inr tt end),
         [], [], (fun w => w).
  split; [apply List.Forall_nil|].
  intros st. unfold sendall. rewrite !app_nil_r.
  destruct outcome; now destruct st.
Qed.

Lemma tame_bind {A B : Type} (m : M A) (f : A -> M B) :
  tame m -> (forall a, tame (f a)) -> tame (bind m f).
Proof.
  intros (result & records & made & k & Hquiet & Hm) Hf.
  destruct result as [e|a].
  - exists (inl e), records, made, k. split; [assumption|].
    intros st. unfold bind. now rewrite Hm.
  - destruct (Hf a) as (result' & records' & made' & k' & Hquiet' & Hfa).
    exists result', (records ++ records'), (made ++ made'),
           (fun w => k' (k w)).
    split; [now apply Forall_app|].
    intros st. unfold bind. rewrite Hm, Hfa. cbn [log reads wire].
    now rewrite !app_assoc.
Qed.

Lemma tame_generate_metrics (os : psutil float) :
  tame (generate_metrics str_float os).
Proof.
  unfold generate_metrics.
  apply tame_bind; [apply tame_os_call|]. intros cpu_usage.
  apply tame_bind; [apply tame_os_call|]. intros mem_info.
  apply tame_bind; [apply tame_os_call|]. intros disk_info.
  apply tame_ret.
Qed.

Lemma tame_end_headers_on (sock : socket) : tame (end_headers_on sock).
Proof.
  apply tame_bind; [apply tame_sendall|]. intros _. apply tame_modify_wire.
Qed.

Lemma tame_do_GET_on (sock : socket) (os : psutil float) (path : string) :
  tame (do_GET_on str_float sock os path).
Proof.
  unfold do_GET_on. destruct (String.eqb path "/").
  - apply tame_bind; [now apply tame_logger_emit|]. intros _.
    apply tame_bind; [apply tame_generate_metrics|]. intros metrics.
    apply tame_bind; [apply tame_modify_wire|]. intros _.
    apply tame_bind; [apply tame_modify_wire|]. intros _.
    apply tame_bind; [apply tame_end_headers_on|]. intros _.
    apply tame_bind; [apply tame_sendall|]. intros _.
    apply tame_modify_wire.
  - apply tame_bind; [now apply tame_logger_emit|]. intros _.
    apply tame_bind; [apply tame_modify_wire|]. intros _.
    apply tame_end_headers_on.
Qed.

Lemma tame_send_error_on (sock : socket) (command : string) :
  tame (send_error_on sock command).
Proof.
  unfold send_error_on.
  apply tame_bind; [apply tame_sendall|]. intros _.
  destruct (String.eqb command "HEAD"); [apply tame_ret | apply tame_sendall].
Qed.

(** *** One connection *)

(** On a sound socket the handler is the one of the first model. *)
Lemma do_GET_on_sound (os : psutil float) (path : string) (st : hstate) :
  do_GET_on str_float sound os path st = do_GET str_float os path st.
Proof.
  unfold do_GET_on, do_GET. destruct (String.eqb path "/"); [|reflexivity].
  unfold bind, logger_info, logger_emit.
  now destruct (generate_metrics str_float os _) as [[e|text] st'].
Qed.

(** One connection, seen from the process: the reply is the one the
    request gets alone, the log gains no ERROR record. *)
Lemma handle_one_request_on_enter
    (sock : socket) (os : psutil float) (command path : string) :
  exists (records : list log_record) (made : list os_read),
    quiet records
    /\ forall p, exists w,
         handle_one_request_on (MetricsHandler_on str_float) sock os command
           path (enter p)
         = (answer_on str_float (sock, os, command, path),
            {| log := p_log p ++ records; reads := p_reads p ++ made;
               wire := w |}).
Proof.
  unfold answer_on, handle_one_request_on, MetricsHandler_on.
  destruct (String.eqb_spec command "GET") as [->|Hcommand].
  - change ("do_" +:+ "GET") with "do_GET". rewrite lookup_singleton_eq.
    destruct (tame_do_GET_on sock os path)
      as (result & records & made & k & Hquiet & Hrun).
    exists records, made. split; [exact Hquiet|]. intros p.
    rewrite !Hrun. cbn [enter log reads wire app].
    destruct result as [e|[]]; now eexists.
  - rewrite lookup_singleton_ne
      by (cbn [String.append]; intros Heq; apply Hcommand; now injection Heq).
    destruct (tame_send_error_on sock command)
      as (result & records & made & k & Hquiet & Hrun).
    exists records, made. split; [exact Hquiet|]. intros p.
    rewrite !Hrun. cbn [enter log reads wire app].
    destruct result as [e|[]]; now eexists.
Qed.

(** On a sound socket the dispatch is the one of the first model. *)
Lemma handle_one_request_on_sound
    (os : psutil float) (command path : string) (st : hstate) :
  handle_one_request_on (MetricsHandler_on str_float) sound os command path st
  = handle_one_request (MetricsHandler str_float) os command path st.
Proof.
  unfold handle_one_request_on, handle_one_request, MetricsHandler_on,
    MetricsHandler.
  destruct (String.eqb_spec command "GET") as [->|Hcommand].
  - change ("do_" +:+ "GET") with "do_GET". rewrite !lookup_singleton_eq.
    now rewrite do_GET_on_sound.
  - rewrite !lookup_singleton_ne
      by (cbn [String.append]; intros Heq; apply Hcommand; now injection Heq).
    unfold send_error_on, bind, sendall, ret. cbn [sendall_headers sound].
    now destruct (String.eqb command "HEAD").
Qed.

(** *** The loop *)

(** With the default hook, connections that are not interrupted are all
    handled: the loop is still waiting afterwards, every request has the
    reply it gets alone, the exceptions that left [handle_one_request]
    were reported, and the log has gained no ERROR record. *)
Lemma serve_forever_on_survives
    (requests : list (socket * psutil float * string * string)) :
  Forall (fun request => interrupted (answer_on str_float request) = false)
    requests ->
  forall p, exists p',
    serve_forever_on str_float print_traceback
      (map connection_of requests) p
    = (None, p')
    /\ p_replies p' = p_replies p ++ map (answer_on str_float) requests
    /\ p_tracebacks p'
       = p_tracebacks p
         ++ omap propagates (map (answer_on str_float) requests)
    /\ (quiet (p_log p) -> quiet (p_log p'))
    /\ p_listening p' = p_listening p.
Proof.
  induction requests as [|[[[sock os] command] path] requests IH];
    intros Hall p.
  - exists p. cbn [map omap list_omap]. rewrite !app_nil_r. now repeat split.
  - pose proof (Forall_inv Hall) as Hfirst.
    apply Forall_inv_tail in Hall. cbv beta in Hfirst.
    cbn [map connection_of serve_forever_on].
    destruct (handle_one_request_on_enter sock os command path)
      as (records & made & Hquiet & Hrun).
    destruct (Hrun p) as [w ->].
    set (r := answer_on str_float (sock, os, command, path)) in *.
    set (p1 := leave p r _).
    assert (Hnext : forall q reported,
               p_replies q = p_replies p ++ [r] ->
               p_tracebacks q = p_tracebacks p ++ reported ->
               p_log q = p_log p ++ records ->
               p_listening q = p_listening p ->
               omap propagates [r] = reported ->
               exists p',
                 serve_forever_on str_float print_traceback
                   (map connection_of requests) q = (None, p')
                 /\ p_replies p'
                    = p_replies p ++ r :: map (answer_on str_float) requests
                 /\ p_tracebacks p'
                    = p_tracebacks p
                      ++ omap propagates
                           (r :: map (answer_on str_float) requests)
                 /\ (quiet (p_log p) -> quiet (p_log p'))
                 /\ p_listening p' = p_listening p).
    { intros q reported Hreplies Htracebacks Hlog Hlistening Hreported.
      destruct (IH Hall q) as (p' & Hserve & Hr & Ht & Hq & Hl).
      exists p'. split; [exact Hserve|].
      split; [now rewrite Hr, Hreplies, <- app_assoc|].
      split.
      { rewrite Ht, Htracebacks, <- app_assoc. f_equal.
        change (r :: map (answer_on str_float) requests)
          with ([r] ++ map (answer_on str_float) requests).
        now rewrite omap_app, Hreported. }
      split; [|now rewrite Hl].
      intros Hp. apply Hq. rewrite Hlog. now apply Forall_app. }
    destruct (propagates r) as [e|] eqn:Hpropagates.
    + destruct e as [|class_name message].
      * unfold propagates in Hpropagates.
        destruct r as [sent|code|raised partial]; try discriminate.
        destruct (is_TimeoutError raised); [discriminate|].
        injection Hpropagates as ->. discriminate Hfirst.
      * cbn [is_Exception].
        apply (Hnext _ [Exception class_name message]); try reflexivity.
        cbn [omap list_omap]. now rewrite Hpropagates.
    + apply (Hnext _ []); try reflexivity.
      * cbn [p1 leave p_tracebacks]. now rewrite app_nil_r.
      * cbn [omap list_omap]. now rewrite Hpropagates.
Qed.

(** C8, as the code has it.  Whatever exceptions the handling of single
    requests raises (a failing read of the operating system, a socket
    that fails or times out), they are not caught by the [except] clauses
    of the top level and the program logs no ERROR record: the library
    deals with them, [handle_error] reporting on standard error those
    that leave [handle_one_request]; the process does not end, and every
    request, before and after a failing one, gets the reply it would get
    if it were alone. *)
Theorem handler_exceptions_do_not_stop_the_server
    (environ : gmap string string) (server_bind : string -> Z -> option exn)
    (requests : list (socket * psutil float * string * string)) (port : Z) :
  EXPORTER_PORT int environ = Some port ->
  server_bind (EXPORTER_HOST environ) port = None ->
  Forall (fun request => interrupted (answer_on str_float request) = false)
    requests ->
  exists p,
    main_on str_float int environ server_bind (map connection_of requests)
    = (Serving, p)
    /\ p_replies p = map (answer_on str_float) requests
    /\ p_tracebacks p = omap propagates (map (answer_on str_float) requests)
    /\ quiet (p_log p).
Proof.
  intros Hport Hbind Hall. unfold main_on, run_on.
  rewrite Hport, Hbind.
  match goal with
  | |- context [serve_forever_on _ _ _ ?p0] =>
      destruct (serve_forever_on_survives requests Hall p0)
        as (p' & -> & Hreplies & Htracebacks & Hquiet & _)
  end.
  exists p'. split; [reflexivity|]. split; [exact Hreplies|].
  split; [exact Htracebacks|].
  apply Hquiet. repeat apply List.Forall_cons; try apply List.Forall_nil;
    discriminate.
Qed.

End Failures.

(** A request whose metric read fails, followed by another one.  With the
    default hook the top level logs nothing; were the exception let
    through to the top level, the process would log it and end.  Either
    way the sentence "caught at the top level and logged, and the listener
    continues serving" fails on [one_bad_connection]. *)
Lemma failing_request_neither_logged_nor_fatal :
  ~ caught_at_top_level_and_still_serving "[Errno 13] Permission denied: '/'"
      (run_on str_percentage ascii_int print_traceback ∅ bind_succeeds
         one_bad_connection)
  /\ ~ caught_at_top_level_and_still_serving
        "[Errno 13] Permission denied: '/'"
        (run_on str_percentage ascii_int reraise ∅ bind_succeeds
           one_bad_connection).
Proof.
  split; intros [Hlogged Hserving].
  - vm_compute in Hlogged.
    repeat (destruct Hlogged as [Hlogged|Hlogged]; [discriminate Hlogged|]).
    exact Hlogged.
  - vm_compute in Hserving. discriminate Hserving.
Qed.

Lemma handler_exceptions_do_not_stop_the_server_on_four_requests :
  EXPORTER_PORT ascii_int ∅ = Some 8081
  /\ Forall (fun request =>
               interrupted (answer_on str_percentage request) = false)
       four_requests
  /\ exists p,
       main_on str_percentage ascii_int ∅ bind_succeeds
         (map connection_of four_requests)
       = (Serving, p)
       /\ p_tracebacks p = [no_disk_access; broken_pipe]
       /\ last (p_replies p)
          = Some (answer_on str_percentage (sound, machine, "GET", "/")).
Proof.
  assert (Hport : EXPORTER_PORT ascii_int ∅ = Some 8081) by reflexivity.
  assert (Hall : Forall (fun request =>
                           interrupted (answer_on str_percentage request)
                           = false) four_requests).
  { repeat apply List.Forall_cons; try apply List.Forall_nil; reflexivity. }
  split; [exact Hport|]. split; [exact Hall|].
  destruct (handler_exceptions_do_not_stop_the_server str_percentage
              ascii_int ∅ bind_succeeds four_requests 8081 Hport eq_refl Hall)
    as (p & Hrun & Hreplies & Htracebacks & _).
  exists p. split; [exact Hrun|].
  rewrite Hreplies, Htracebacks. split; reflexivity.
Defined.
